(** * Chat media routes: transcription, upload and removal of attachments

    A shallow embedding of [Backend/chat_media_routes.py] (the Flask blueprint
    [chat_media_bp]) and the properties of its three handlers,
    [transcribe_audio], [upload_file] and [delete_file].

    Conventions of the embedding.
    - A Python [str] is a Rocq [string]; one [ascii] stands for one character
      (code points below 256).  Accented letters of the French messages are
      kept as the source file spells them.
    - A Python [set] of extensions is a [gset string].  Iterating a set (the
      [for] loop of [delete_file], [", ".join(...)]) visits its elements in
      an order the language does not fix: every such iteration takes the
      order as a list, and the theorems assume no more of it than that it
      enumerates the set.
    - The filesystem, the process environment, the random source and the
      external capabilities (OpenAI, Pillow, PyPDF2, werkzeug's
      [secure_filename]) are inputs of the handlers: a handler is a function
      of the request, of those inputs and of the state it starts in. *)

From Stdlib Require Import ZArith NArith String Ascii List Lia.
From stdpp Require Import base option strings list gmap pretty.

Local Open Scope string_scope.
Local Open Scope Z_scope.

(** ** Python strings *)

Module Py.

Definition is_upper (c : ascii) : bool :=
  ((65 <=? N_of_ascii c) && (N_of_ascii c <=? 90))%N.

Definition lower_char (c : ascii) : ascii :=
  if is_upper c then ascii_of_N (N_of_ascii c + 32) else c.

(** [s.lower()].  Only the letters A-Z move; no character outside ASCII
    lowers to a letter that occurs in one of the extension sets below. *)
Fixpoint lower (s : string) : string :=
  match s with
  | EmptyString => EmptyString
  | String c s' => String (lower_char c) (lower s')
  end.

(** [s.isascii()]: every character is below 128.  On such a string
    [lower] is [str.lower], which moves no other ASCII character. *)
Fixpoint isascii (s : string) : bool :=
  match s with
  | EmptyString => true
  | String c s' => (N_of_ascii c <? 128)%N && isascii s'
  end.

(** [c in s] for a one-character [c]. *)
Fixpoint contains (c : ascii) (s : string) : bool :=
  match s with
  | EmptyString => false
  | String d s' => if Ascii.eqb d c then true else contains c s'
  end.

(** [s.rsplit(c, 1)] when [c] occurs in [s]: the text before the last [c]
    and the text after it; [None] when [c] does not occur (Python then
    returns the one-element list [[s]]). *)
Fixpoint rsplit1 (c : ascii) (s : string) : option (string * string) :=
  match s with
  | EmptyString => None
  | String d s' =>
      match rsplit1 c s' with
      | Some (before, after) => Some (String d before, after)
      | None => if Ascii.eqb d c then Some (EmptyString, s') else None
      end
  end.

(** [s.rsplit(c, 1)[1]]; an [IndexError] ([None]) when [c] is not in [s]. *)
Definition rsplit1_last (c : ascii) (s : string) : option string :=
  snd <$> rsplit1 c s.

(** [sep.join(xs)] *)
Fixpoint join (sep : string) (xs : list string) : string :=
  match xs with
  | [] => ""
  | [x] => x
  | x :: rest => x ++ sep ++ join sep rest
  end.

(** [s[:n]] *)
Definition prefix (n : nat) (s : string) : string := substring 0 n s.

(** [str.isspace] on one character. *)
Definition isspace (c : ascii) : bool :=
  let n := N_of_ascii c in
  (((9 <=? n) && (n <=? 13)) || ((28 <=? n) && (n <=? 32))
   || (n =? 133) || (n =? 160))%N.

Fixpoint lstrip_by (p : ascii → bool) (s : string) : string :=
  match s with
  | EmptyString => EmptyString
  | String c s' => if p c then lstrip_by p s' else s
  end.

Fixpoint rstrip_by (p : ascii → bool) (s : string) : string :=
  match s with
  | EmptyString => EmptyString
  | String c s' =>
      match rstrip_by p s' with
      | EmptyString => if p c then EmptyString else String c EmptyString
      | r => String c r
      end
  end.

(** [s.strip()] *)
Definition strip (s : string) : string := rstrip_by isspace (lstrip_by isspace s).

(** [s.rstrip(c)] for a one-character [c]. *)
Definition rstrip_char (c : ascii) (s : string) : string := rstrip_by (Ascii.eqb c) s.

(** [s.strip(chars)] *)
Definition strip_chars (chars : string) (s : string) : string :=
  rstrip_by (λ c, contains c chars) (lstrip_by (λ c, contains c chars) s).

(** [s.startswith(c)], [s.endswith(c)] for a one-character [c]. *)
Definition startswith (c : ascii) (s : string) : bool :=
  match s with
  | String d _ => Ascii.eqb d c
  | EmptyString => false
  end.

Fixpoint endswith (c : ascii) (s : string) : bool :=
  match s with
  | EmptyString => false
  | String d EmptyString => Ascii.eqb d c
  | String _ s' => endswith c s'
  end.

(** [bool(s)] of a string: the empty string is falsy. *)
Definition truthy (s : string) : bool :=
  match s with
  | EmptyString => false
  | _ => true
  end.

(** [posixpath.join(a, b)] *)
Definition os_path_join (a b : string) : string :=
  if startswith "/" b then b
  else if negb (truthy a) || endswith "/" a then a ++ b
  else a ++ "/" ++ b.

Fixpoint filter_chars (p : ascii → bool) (s : string) : string :=
  match s with
  | EmptyString => EmptyString
  | String c s' => if p c then String c (filter_chars p s') else filter_chars p s'
  end.

Fixpoint map_chars (f : ascii → ascii) (s : string) : string :=
  match s with
  | EmptyString => EmptyString
  | String c s' => String (f c) (map_chars f s')
  end.

(** [s.split()]: the maximal runs of non-blank characters; [word] is the
    run being read. *)
Fixpoint split_from (word : string) (s : string) : list string :=
  match s with
  | EmptyString => if truthy word then [word] else []
  | String c s' =>
      if isspace c
      then (if truthy word then [word] else []) ++ split_from EmptyString s'
      else split_from (word ++ String c EmptyString) s'
  end.
Definition split (s : string) : list string := split_from EmptyString s.

End Py.

(** ** Configuration (lines 28-33) *)

Definition ALLOWED_AUDIO_EXTENSIONS : gset string :=
  {[ "m4a"; "mp3"; "wav"; "webm"; "ogg"; "flac" ]}.
Definition ALLOWED_IMAGE_EXTENSIONS : gset string :=
  {[ "jpg"; "jpeg"; "png"; "gif"; "webp"; "heic" ]}.
Definition ALLOWED_DOCUMENT_EXTENSIONS : gset string :=
  {[ "pdf"; "txt"; "md" ]}.
Definition MAX_AUDIO_SIZE : Z := 25 * 1024 * 1024.
Definition MAX_FILE_SIZE : Z := 20 * 1024 * 1024.

(** [allowed_file(filename, allowed_extensions)] *)
Definition allowed_file (filename : string) (allowed_extensions : gset string) : bool :=
  Py.contains "." filename &&
  match Py.rsplit1_last "." filename with
  | Some e => bool_decide (Py.lower e ∈ allowed_extensions)
  | None => false
  end.

(** The expression [name.rsplit('.', 1)[1].lower() if '.' in name else '']
    of [get_file_type] and [upload_file]. *)
Definition extension_or_empty (name : string) : string :=
  if Py.contains "." name
  then default "" (Py.lower <$> Py.rsplit1_last "." name)
  else "".

(** [get_file_type(filename)] *)
Definition get_file_type (filename : string) : string :=
  let ext := extension_or_empty filename in
  if bool_decide (ext ∈ ALLOWED_AUDIO_EXTENSIONS) then "audio"
  else if bool_decide (ext ∈ ALLOWED_IMAGE_EXTENSIONS) then "image"
  else if bool_decide (ext ∈ ALLOWED_DOCUMENT_EXTENSIONS) then "document"
  else "unknown".

(** ** The state the handlers run in *)

(** The exception classes the handlers tell apart: [except ValueError],
    [except ImportError], and everything else under [except Exception]. *)
Inductive exn_class := ValueError | ImportError | OtherException.

(** A raised exception: its class and [str(e)]. *)
Record exn := Exn { exn_class_of : exn_class; exn_str : string }.

Inductive log_level := WARNING | ERROR.

(** Calls made to the external capabilities, in the order they are made. *)
Inductive capability_call :=
  | Whisper_create (model file language response_format : string)
  | Image_open (path : string)
  | Image_convert (mode : string)
  | Image_thumbnail (size : Z * Z) (resample : string)
  | Image_save (path : string) (quality : Z) (optimize : bool)
  | PdfReader_open (path : string)
  | Page_extract_text (index : nat).

(** The client object [OpenAI(api_key=...)]. *)
Record OpenAI := { api_key : string }.

(** Regular files by path, with their contents, and the directories made.
    The handlers probe and remove paths of regular files only, so that
    [os.path.exists] below is the presence of a file. *)
Record filesystem := Filesystem {
  files : gmap string string;
  dirs : gset string
}.

Record world := World {
  fs : filesystem;
  _openai_client : option OpenAI;          (* the module global, line 36 *)
  logged : list (log_level * string);      (* current_app.logger *)
  calls : list capability_call
}.

Definition with_files (f : gmap string string → gmap string string) (w : world) : world :=
  World (Filesystem (f (files (fs w))) (dirs (fs w))) (_openai_client w) (logged w) (calls w).
Definition with_dirs (f : gset string → gset string) (w : world) : world :=
  World (Filesystem (files (fs w)) (f (dirs (fs w)))) (_openai_client w) (logged w) (calls w).
Definition with_client (c : OpenAI) (w : world) : world :=
  World (fs w) (Some c) (logged w) (calls w).
Definition with_log (l : log_level) (msg : string) (w : world) : world :=
  World (fs w) (_openai_client w) (logged w ++ [(l, msg)]) (calls w).
Definition with_call (c : capability_call) (w : world) : world :=
  World (fs w) (_openai_client w) (logged w) (calls w ++ [c]).

(** A statement of a handler: it runs in a world, returns a value or raises,
    and leaves a world behind in both cases. *)
Definition M (A : Type) : Type := world → (exn + A) * world.

Definition ret {A} (a : A) : M A := λ w, (inr a, w).
Definition raise {A} (e : exn) : M A := λ w, (inl e, w).
Definition bind {A B} (m : M A) (k : A → M B) : M B :=
  λ w, match m w with
       | (inr a, w') => k a w'
       | (inl e, w') => (inl e, w')
       end.

#[export] Instance M_ret : MRet M := @ret.
#[export] Instance M_bind : MBind M := λ A B k m, bind m k.

(** [try: m  except ... as e: h e] *)
Definition try_except {A} (m : M A) (h : exn → M A) : M A :=
  λ w, match m w with
       | (inl e, w') => h e w'
       | r => r
       end.

(** [try: m  finally: f] : [f] runs on every way out of [m]; the outcome of
    [m] stands unless [f] itself raises. *)
Definition try_finally {A} (m : M A) (f : M unit) : M A :=
  λ w, let '(r, w1) := m w in
       match f w1 with
       | (inr _, w2) => (r, w2)
       | (inl e, w2) => (inl e, w2)
       end.

(** The outermost [try ... except] of a route: no exception leaves it. *)
Definition route {A} (m : M A) (h : exn → world → A * world) : world → A * world :=
  λ w, match m w with
       | (inr a, w') => (a, w')
       | (inl e, w') => h e w'
       end.

Definition logger_error (msg : string) : M unit := λ w, (inr tt, with_log ERROR msg w).
Definition logger_warning (msg : string) : M unit := λ w, (inr tt, with_log WARNING msg w).
Definition call (c : capability_call) : M unit := λ w, (inr tt, with_call c w).

(** An outcome drawn from the environment: the value, or the fault raised. *)
Definition outcome {A} (o : exn + A) : M A := λ w, (o, w).
Definition fault (o : option exn) : M unit :=
  λ w, match o with Some e => (inl e, w) | None => (inr tt, w) end.

(** *** Filesystem operations *)

Definition os_path_exists (p : string) : M bool :=
  λ w, (inr (bool_decide (is_Some (files (fs w) !! p))), w).

Definition FileNotFoundError (p : string) : exn :=
  Exn OtherException ("[Errno 2] No such file or directory: '" ++ p ++ "'").

Definition os_remove (p : string) : M unit :=
  λ w, match files (fs w) !! p with
       | Some _ => (inr tt, with_files (delete p) w)
       | None => (inl (FileNotFoundError p), w)
       end.

(** [open(p, 'rb')]: the contents, or [FileNotFoundError]. *)
Definition open_rb (p : string) : M string :=
  λ w, match files (fs w) !! p with
       | Some data => (inr data, w)
       | None => (inl (FileNotFoundError p), w)
       end.

(** A completed write of [data] at [p]. *)
Definition write_file (p data : string) : M unit :=
  λ w, (inr tt, with_files (<[p := data]>) w).

(** The path and the prefixes of it that stop before a separator. *)
Fixpoint path_prefixes (seen rest : string) : list string :=
  match rest with
  | EmptyString => [seen]
  | String c rest' =>
      (if Ascii.eqb c "/" && Py.truthy seen then [seen] else [])
      ++ path_prefixes (seen ++ String c EmptyString) rest'
  end.

(** [os.makedirs(p, exist_ok=True)]; [o] is the fault it meets, if any. *)
Definition os_makedirs (p : string) (o : option exn) : M unit :=
  λ w, match o with
       | Some e => (inl e, w)
       | None => (inr tt, with_dirs (λ d, d ∪ list_to_set (path_prefixes "" p)) w)
       end.

(** An uploaded part, [werkzeug.datastructures.FileStorage]:
    [stream_length] is what [tell()] answers after [seek(0, 2)], [stream]
    the bytes [save] copies. *)
Record FileStorage := {
  filename : string;
  stream_length : Z;
  stream : string
}.

(** How a write to disk ends: done, or a fault that may leave a part of the
    file at the destination. *)
Inductive save_outcome :=
  | Saved
  | SaveFailed (e : exn) (left_behind : option string).

(** [f.save(dst)] *)
Definition FileStorage_save (f : FileStorage) (dst : string) (o : save_outcome) : M unit :=
  λ w, match o with
       | Saved => (inr tt, with_files (<[dst := stream f]>) w)
       | SaveFailed e (Some part) => (inl e, with_files (<[dst := part]>) w)
       | SaveFailed e None => (inl e, w)
       end.

(** ** Responses *)

(** The [file] object of an upload response. [thumbnailURL] is always a key
    ([None] is JSON null); [extractedText] is a key only when present. *)
Record AttachmentJson := {
  id_ : string;
  type_ : string;
  fileName : string;
  fileURL : string;
  thumbnailURL : option string;
  fileSize : Z;
  mimeType : string;
  extractedText : option string
}.

Inductive json_body :=
  | JsonError (error : string)                  (* success: False, error *)
  | JsonTranscript (text : string) (duration : option string) (language : string)
  | JsonFile (file : AttachmentJson)            (* success: True, file *)
  | JsonSuccess.                                (* success: True *)

(** A body and its HTTP status ([jsonify(...)] alone is 200). *)
Definition response : Type := json_body * Z.

Definition success (r : response) : bool :=
  match fst r with
  | JsonError _ => false
  | _ => true
  end.
Definition status (r : response) : Z := snd r.

Definition newline : string := String (ascii_of_N 10) EmptyString.

(** ** Transcription (lines 38-46 and 72-168) *)

(** The answer of [client.audio.transcriptions.create]: its [text], and its
    [duration] attribute when it has one (a JSON number, kept as written). *)
Record Transcript := { text : string; duration : option string }.

Record TranscribeRequest := {
  files_audio : option FileStorage;      (* request.files.get('audio') *)
  form_language : option string          (* request.form.get('language') *)
}.

(** What a run of [transcribe_audio] meets outside the program. *)
Record transcribe_env := {
  OPENAI_API_KEY : option string;        (* os.environ.get('OPENAI_API_KEY') *)
  audio_uuid4_hex : string;              (* uuid.uuid4().hex *)
  gettempdir : string;                   (* tempfile.gettempdir() *)
  audio_extensions_order : list string;  (* iteration of ALLOWED_AUDIO_EXTENSIONS *)
  audio_save : save_outcome;             (* audio_file.save(temp_path) *)
  whisper : exn + Transcript             (* the transcription service *)
}.

Definition missing_key_message : string :=
  "OPENAI_API_KEY non configurée dans les variables d'environnement".

(** [get_openai_client()] *)
Definition get_openai_client (environ_key : option string) : M OpenAI :=
  λ w, match _openai_client w with
       | Some client => (inr client, w)
       | None =>
           match environ_key with
           | Some key =>
               if negb (Py.truthy key)
               then (inl (Exn ValueError missing_key_message), w)
               else (inr {| api_key := key |}, with_client {| api_key := key |} w)
           | None => (inl (Exn ValueError missing_key_message), w)
           end
       end.

(** [xs[1]] of an [rsplit] result: [IndexError] when there is no such item. *)
Definition item1 (o : option string) : M string :=
  match o with
  | Some x => mret x
  | None => raise (Exn OtherException "list index out of range")
  end.

Definition too_large_message (limit : Z) : string :=
  "Fichier trop volumineux. Maximum: " ++ pretty (limit / (1024 * 1024)) ++ " MB".

Definition audio_format_message (order : list string) : string :=
  "Format audio non supporté. Formats acceptés: " ++ Py.join ", " order.

(** The path of the staging file (lines 128-130). *)
Definition temp_path_of (env : transcribe_env) (ext : string) : string :=
  Py.os_path_join (gettempdir env) ("audio_" ++ audio_uuid4_hex env ++ "." ++ ext).

(** Lines 133-151: the body of the inner [try]. *)
Definition transcribe_try (audio_file : FileStorage) (language temp_path : string)
    (env : transcribe_env) : M response :=
  FileStorage_save audio_file temp_path (audio_save env);;
  client ← get_openai_client (OPENAI_API_KEY env);
  audio ← open_rb temp_path;
  call (Whisper_create "whisper-1" temp_path language "verbose_json");;
  transcript ← outcome (whisper env);
  mret (JsonTranscript (text transcript) (duration transcript) language, 200).

(** Lines 153-156: the [finally] clause. *)
Definition transcribe_finally (temp_path : string) : M unit :=
  present ← os_path_exists temp_path;
  if present : bool then os_remove temp_path else mret tt.

(** Lines 132-156: the inner [try ... finally]. *)
Definition transcribe_staged (audio_file : FileStorage) (language temp_path : string)
    (env : transcribe_env) : M response :=
  try_finally (transcribe_try audio_file language temp_path env)
              (transcribe_finally temp_path).

(** Lines 158-168: the two [except] clauses. *)
Definition transcribe_except (e : exn) (w : world) : response * world :=
  match exn_class_of e with
  | ValueError => ((JsonError (exn_str e), 500), w)
  | _ =>
      ((JsonError ("Erreur lors de la transcription: " ++ exn_str e), 500),
       with_log ERROR ("Erreur transcription: " ++ exn_str e) w)
  end.

(** [transcribe_audio()] *)
Definition transcribe_audio (req : TranscribeRequest) (env : transcribe_env)
    : world → response * world :=
  route
    (match files_audio req with
     | None => mret (JsonError "Aucun fichier audio fourni", 400)
     | Some audio_file =>
         if String.eqb (filename audio_file) "" then
           mret (JsonError "Nom de fichier vide", 400)
         else if negb (allowed_file (filename audio_file) ALLOWED_AUDIO_EXTENSIONS) then
           mret (JsonError (audio_format_message (audio_extensions_order env)), 400)
         else
           let file_size := stream_length audio_file in
           if file_size >? MAX_AUDIO_SIZE then
             mret (JsonError (too_large_message MAX_AUDIO_SIZE), 400)
           else
             let language := default "fr" (form_language req) in
             e ← item1 (Py.rsplit1_last "." (filename audio_file));
             let ext := Py.lower e in
             transcribe_staged audio_file language (temp_path_of env ext) env
     end)
    transcribe_except.

(** ** Upload (lines 175-355) *)

(** An image as Pillow opened it; the code reads its [mode] only. *)
Record Image := { mode : string }.

Record pil_env := {
  PIL_installed : bool;                  (* from PIL import Image *)
  thumbs_makedirs : option exn;          (* os.makedirs(thumbs_folder, ...) *)
  Image_open_result : exn + Image;       (* Image.open(image_path) *)
  Image_convert_fault : option exn;      (* img.convert('RGB') *)
  Image_thumbnail_fault : option exn;    (* img.thumbnail(...) *)
  Image_save_result : exn + string       (* img.save(...): the bytes written *)
}.

(** [create_thumbnail(image_path, upload_folder, file_id, ext)] *)
Definition create_thumbnail (image_path upload_folder file_id ext : string)
    (pil : pil_env) : M (option string) :=
  try_except
    (fault (if PIL_installed pil then None
            else Some (Exn ImportError "No module named 'PIL'"));;
     let thumbs_folder := Py.os_path_join upload_folder "thumbs" in
     os_makedirs thumbs_folder (thumbs_makedirs pil);;
     let thumb_filename := file_id ++ "_thumb." ++ ext in
     let thumb_path := Py.os_path_join thumbs_folder thumb_filename in
     call (Image_open image_path);;
     img ← outcome (Image_open_result pil);
     img ← (if bool_decide (mode img ∈ ["RGBA"; "P"])
            then call (Image_convert "RGB");;
                 fault (Image_convert_fault pil);;
                 mret {| mode := "RGB" |}
            else mret img);
     call (Image_thumbnail (200, 200) "LANCZOS");;
     fault (Image_thumbnail_fault pil);;
     call (Image_save thumb_path 85 true);;
     data ← outcome (Image_save_result pil);
     write_file thumb_path data;;
     mret (Some thumb_path))
    (λ e, match exn_class_of e with
          | ImportError =>
              logger_warning "Pillow non installé, pas de miniature créée";;
              mret None
          | _ =>
              logger_error ("Erreur création miniature: " ++ exn_str e);;
              mret None
          end).

(** A PDF as PyPDF2 reads it: for each page what [extract_text()] gives. *)
Record pdf_env := {
  PyPDF2_installed : bool;               (* from PyPDF2 import PdfReader *)
  PdfReader_result : exn + list (exn + string)
}.

(** The loop of lines 345-346 over the pages it is given, from page
    number [i], with [text] read so far. *)
Fixpoint extract_pages (pages : list (exn + string)) (i : nat) (text : string) : M string :=
  match pages with
  | [] => mret text
  | page :: rest =>
      call (Page_extract_text i);;
      t ← outcome page;
      extract_pages rest (S i) (text ++ t ++ newline)
  end.

(** [extract_pdf_text(pdf_path)] *)
Definition extract_pdf_text (pdf_path : string) (pdf : pdf_env) : M (option string) :=
  try_except
    (fault (if PyPDF2_installed pdf then None
            else Some (Exn ImportError "No module named 'PyPDF2'"));;
     call (PdfReader_open pdf_path);;
     pages ← outcome (PdfReader_result pdf);
     text ← extract_pages (take 10 pages) 0 "";
     mret (Some (Py.strip text)))
    (λ e, match exn_class_of e with
          | ImportError =>
              logger_warning "PyPDF2 non installé, pas d'extraction PDF";;
              mret None
          | _ =>
              logger_error ("Erreur extraction PDF: " ++ exn_str e);;
              mret None
          end).

Record UploadRequest := {
  files_file : option FileStorage;       (* request.files.get('file') *)
  host_url : string                      (* request.host_url *)
}.

(** What a run of [upload_file] meets outside the program. *)
Record upload_env := {
  UPLOAD_FOLDER : option string;         (* current_app.config.get('UPLOAD_FOLDER') *)
  upload_uuid4_hex : string;             (* uuid.uuid4().hex *)
  upload_extensions_order : list string; (* iteration of the union of the two sets *)
  werkzeug_secure_filename : string → string;
  chat_makedirs : option exn;            (* os.makedirs(chat_upload_folder, ...) *)
  upload_save : save_outcome;            (* uploaded_file.save(file_path) *)
  pil : pil_env;
  pypdf2 : pdf_env
}.

(** [werkzeug.utils.secure_filename] on a POSIX host, for ASCII names: the
    characters outside ASCII are dropped here, where werkzeug first
    decomposes them (NFKD) and drops what is left outside ASCII. *)
Definition secure_filename (name : string) : string :=
  let name := Py.filter_chars (λ c, (N_of_ascii c <? 128)%N) name in
  let name := Py.map_chars (λ c, if Ascii.eqb c "/" then " "%char else c) name in
  let name := Py.join "_" (Py.split name) in
  let keep (c : ascii) :=
    let n := N_of_ascii c in
    (((48 <=? n) && (n <=? 57)) || ((65 <=? n) && (n <=? 90))
     || ((97 <=? n) && (n <=? 122)) || Py.contains c "_.-")%N in
  Py.strip_chars "._" (Py.filter_chars keep name).

(** The [mime_types] dictionary of lines 268-278. *)
Definition mime_types : gmap string string :=
  list_to_map
    [ ("jpg", "image/jpeg"); ("jpeg", "image/jpeg"); ("png", "image/png");
      ("gif", "image/gif"); ("webp", "image/webp"); ("heic", "image/heic");
      ("pdf", "application/pdf"); ("txt", "text/plain"); ("md", "text/markdown") ].

Definition all_allowed : gset string :=
  ALLOWED_IMAGE_EXTENSIONS ∪ ALLOWED_DOCUMENT_EXTENSIONS.

Definition format_message (order : list string) : string :=
  "Format non supporté. Formats acceptés: " ++ Py.join ", " order.

(** [current_app.config.get('UPLOAD_FOLDER', 'uploads')] joined with
    ['chat'], and the names below it. *)
Definition chat_folder (cfg : option string) : string :=
  Py.os_path_join (default "uploads" cfg) "chat".
Definition artifact_path (cfg : option string) (file_id ext : string) : string :=
  Py.os_path_join (chat_folder cfg) (file_id ++ "." ++ ext).
Definition thumbnail_path (cfg : option string) (file_id ext : string) : string :=
  Py.os_path_join (Py.os_path_join (chat_folder cfg) "thumbs") (file_id ++ "_thumb." ++ ext).

(** Lines 233-298: the upload once the admission checks have passed. *)
Definition upload_admitted (uploaded_file : FileStorage) (file_size : Z)
    (req : UploadRequest) (env : upload_env) : M response :=
  let original_filename := werkzeug_secure_filename env (filename uploaded_file) in
  let ext := extension_or_empty original_filename in
  let file_id := "file_" ++ Py.prefix 12 (upload_uuid4_hex env) in
  let new_filename := file_id ++ "." ++ ext in
  let file_type := get_file_type original_filename in
  let upload_folder := default "uploads" (UPLOAD_FOLDER env) in
  let chat_upload_folder := Py.os_path_join upload_folder "chat" in
  os_makedirs chat_upload_folder (chat_makedirs env);;
  let file_path := Py.os_path_join chat_upload_folder new_filename in
  FileStorage_save uploaded_file file_path (upload_save env);;
  let base_url := Py.rstrip_char "/" (host_url req) in
  let file_url := base_url ++ "/uploads/chat/" ++ new_filename in
  thumbnail_url ←
    (if String.eqb file_type "image" then
       thumb ← create_thumbnail file_path chat_upload_folder file_id ext (pil env);
       if from_option Py.truthy false thumb
       then mret (Some (base_url ++ "/uploads/chat/thumbs/" ++ file_id ++ "_thumb." ++ ext))
       else mret thumb
     else mret None);
  extracted_text ←
    (if String.eqb ext "pdf" then extract_pdf_text file_path (pypdf2 env)
     else mret None);
  let mime_type := default "application/octet-stream" (mime_types !! ext) in
  mret (JsonFile {|
          id_ := file_id;
          type_ := file_type;
          fileName := original_filename;
          fileURL := file_url;
          thumbnailURL := thumbnail_url;
          fileSize := file_size;
          mimeType := mime_type;
          extractedText :=
            if from_option Py.truthy false extracted_text
            then Py.prefix 5000 <$> extracted_text
            else None
        |}, 200).

(** Lines 300-305. *)
Definition upload_except (e : exn) (w : world) : response * world :=
  ((JsonError ("Erreur lors de l'upload: " ++ exn_str e), 500),
   with_log ERROR ("Erreur upload: " ++ exn_str e) w).

(** [upload_file()] *)
Definition upload_file (req : UploadRequest) (env : upload_env)
    : world → response * world :=
  route
    (match files_file req with
     | None => mret (JsonError "Aucun fichier fourni", 400)
     | Some uploaded_file =>
         if String.eqb (filename uploaded_file) "" then
           mret (JsonError "Nom de fichier vide", 400)
         else if negb (allowed_file (filename uploaded_file) all_allowed) then
           mret (JsonError (format_message (upload_extensions_order env)), 400)
         else
           let file_size := stream_length uploaded_file in
           if file_size >? MAX_FILE_SIZE then
             mret (JsonError (too_large_message MAX_FILE_SIZE), 400)
           else upload_admitted uploaded_file file_size req env
     end)
    upload_except.

(** ** Removal (lines 362-396) *)

(** The [for ext in ...] loop of lines 372-382 over the extensions in the
    order [exts]; its value is the flag [deleted]. *)
Fixpoint delete_loop (exts : list string) (chat_upload_folder thumbs_folder file_id : string)
    : M bool :=
  match exts with
  | [] => mret false
  | ext :: rest =>
      let file_path := Py.os_path_join chat_upload_folder (file_id ++ "." ++ ext) in
      found ← os_path_exists file_path;
      if found : bool then
        os_remove file_path;;
        let thumb_path := Py.os_path_join thumbs_folder (file_id ++ "_thumb." ++ ext) in
        thumb_found ← os_path_exists thumb_path;
        (if thumb_found : bool then os_remove thumb_path else mret tt);;
        mret true
      else delete_loop rest chat_upload_folder thumbs_folder file_id
  end.

(** [delete_file(file_id)]; [cfg] is the configured [UPLOAD_FOLDER] and
    [order] the iteration order of the union of the two extension sets. *)
Definition delete_file (file_id : string) (cfg : option string) (order : list string)
    : world → response * world :=
  route
    (let upload_folder := default "uploads" cfg in
     let chat_upload_folder := Py.os_path_join upload_folder "chat" in
     let thumbs_folder := Py.os_path_join chat_upload_folder "thumbs" in
     deleted ← delete_loop order chat_upload_folder thumbs_folder file_id;
     if deleted : bool then mret (JsonSuccess, 200)
     else mret (JsonError "Fichier non trouvé", 404))
    (λ e w, ((JsonError (exn_str e), 500), w)).

(** ** The two uploading operations, side by side

    The specification states admission for "the operation": a run is one of
    the two handlers with its request and environment. *)

Inductive operation_run :=
  | Transcribe (req : TranscribeRequest) (env : transcribe_env)
  | Upload (req : UploadRequest) (env : upload_env).

Definition run (o : operation_run) : world → response * world :=
  match o with
  | Transcribe req env => transcribe_audio req env
  | Upload req env => upload_file req env
  end.

Definition uploaded_part (o : operation_run) : option FileStorage :=
  match o with
  | Transcribe req _ => files_audio req
  | Upload req _ => files_file req
  end.

Definition allowed_extensions (o : operation_run) : gset string :=
  match o with
  | Transcribe _ _ => ALLOWED_AUDIO_EXTENSIONS
  | Upload _ _ => all_allowed
  end.

Definition ceiling (o : operation_run) : Z :=
  match o with
  | Transcribe _ _ => MAX_AUDIO_SIZE
  | Upload _ _ => MAX_FILE_SIZE
  end.

Definition extensions_order (o : operation_run) : list string :=
  match o with
  | Transcribe _ env => audio_extensions_order env
  | Upload _ env => upload_extensions_order env
  end.

Definition unsupported_header (o : operation_run) : string :=
  match o with
  | Transcribe _ _ => "Format audio non supporté. Formats acceptés: "
  | Upload _ _ => "Format non supporté. Formats acceptés: "
  end.

(** The rejections of the admission checks, as the handlers word them. *)
Definition EmptyName : response := (JsonError "Nom de fichier vide", 400).
Definition UnsupportedFormat (o : operation_run) : response :=
  (JsonError (unsupported_header o ++ Py.join ", " (extensions_order o)), 400).
Definition TooLarge (o : operation_run) : response :=
  (JsonError (too_large_message (ceiling o)), 400).

(** The answers of [delete_file]. *)
Definition Deleted : response := (JsonSuccess, 200).
Definition NotFound : response := (JsonError "Fichier non trouvé", 404).

(** The admission checks that stand before the size check. *)
Definition name_checks_pass (o : operation_run) (f : FileStorage) : Prop :=
  filename f ≠ "" ∧ allowed_file (filename f) (allowed_extensions o) = true.

(** The first extension, in the order of the loop of [delete_file], whose
    artifact is on storage. *)
Definition matching_extension (file_id : string) (cfg : option string)
    (order : list string) (w : world) : option string :=
  List.find
    (λ ext, bool_decide (is_Some (files (fs w) !! artifact_path cfg file_id ext)))
    order.

(** The world without the artifact [file_id.ext] and without its thumbnail. *)
Definition without_artifact (file_id : string) (cfg : option string) (ext : string)
    (w : world) : world :=
  with_files (delete (thumbnail_path cfg file_id ext))
    (with_files (delete (artifact_path cfg file_id ext)) w).

(** An identifier as the route [/files/<file_id>] hands it over: one
    segment of the URL path. *)
Definition slash_free (s : string) : Prop := Py.contains "/" s = false.

(** An extension with no dot and no separator in it. *)
Definition plain_extension (e : string) : Prop :=
  Py.contains "." e = false ∧ Py.contains "/" e = false.

(** No artifact of [file_id] is on storage: the identifier was never
    issued before. *)
Definition fresh_identifier (file_id : string) (cfg : option string) (w : world) : Prop :=
  ∀ ext, ext ∈ all_allowed → files (fs w) !! artifact_path cfg file_id ext = None.

(** [e] stands somewhere in the text [s]. *)
Definition occurs_in (e s : string) : Prop := ∃ a b, s = a ++ e ++ b.

(** The faults a staged transcription can meet, in the order the body of
    the [try] can meet them: the write of the staging file fails, no
    credential is at hand, the service call raises. *)
Inductive fault_category := ConfigurationFault | ServiceFault | InternalFault.

Definition credential_missing (env : transcribe_env) (w : world) : bool :=
  match _openai_client w, OPENAI_API_KEY env with
  | Some _, _ => false
  | None, Some key => negb (Py.truthy key)
  | None, None => true
  end.

Definition transcribe_fault (env : transcribe_env) (w : world)
    : option (fault_category * exn) :=
  match audio_save env with
  | SaveFailed e _ => Some (InternalFault, e)
  | Saved =>
      if credential_missing env w
      then Some (ConfigurationFault, Exn ValueError missing_key_message)
      else match whisper env with
           | inl e => Some (ServiceFault, e)
           | inr _ => None
           end
  end.

(** Whether Pillow is there and every step of the derivation goes through. *)
Definition thumbnail_made (pil : pil_env) : bool :=
  PIL_installed pil
  && bool_decide (thumbs_makedirs pil = None)
  && match Image_open_result pil with
     | inr img =>
         if bool_decide (mode img ∈ ["RGBA"; "P"])
         then bool_decide (Image_convert_fault pil = None)
         else true
     | inl _ => false
     end
  && bool_decide (Image_thumbnail_fault pil = None)
  && match Image_save_result pil with inr _ => true | inl _ => false end.

(** The bytes of the thumbnail, when one is made. *)
Definition thumbnail_bytes (pil : pil_env) : option string :=
  if thumbnail_made pil then
    match Image_save_result pil with
    | inr data => Some data
    | inl _ => None
    end
  else None.

(** The text of lines 344-346 as a value: the pages' texts, each followed
    by a newline, after [text]; or the first exception a page raises. *)
Fixpoint join_pages (pages : list (exn + string)) (text : string) : exn + string :=
  match pages with
  | [] => inr text
  | inl e :: _ => inl e
  | inr t :: rest => join_pages rest (text ++ t ++ newline)
  end.

(** What [extract_pdf_text] is specified to return: the stripped text of
    the first ten pages, or nothing when PyPDF2 is missing or anything
    raises. *)
Definition pdf_text (pdf : pdf_env) : option string :=
  if PyPDF2_installed pdf then
    match PdfReader_result pdf with
    | inr pages =>
        match join_pages (take 10 pages) "" with
        | inr text => Some (Py.strip text)
        | inl _ => None
        end
    | inl _ => None
    end
  else None.

(** The [extractedText] an upload response carries for an extracted text. *)
Definition response_text (extracted_text : option string) : option string :=
  match extracted_text with
  | Some t => if Py.truthy t then Some (Py.prefix 5000 t) else None
  | None => None
  end.

Definition is_page_read (c : capability_call) : bool :=
  match c with
  | Page_extract_text _ => true
  | _ => false
  end.

(** How many pages were asked for their text. *)
Definition page_reads (cs : list capability_call) : nat :=
  length (List.filter is_page_read cs).

(** Every page asked for its text is among the first [n]. *)
Definition pages_within (n : nat) (cs : list capability_call) : Prop :=
  ∀ i, Page_extract_text i ∈ cs → (i < n)%nat.

(** Sample inputs, used to run the handlers. *)
Module Sample.

Definition empty_world : world := World (Filesystem ∅ ∅) None [] [].

Definition memo : FileStorage :=
  {| filename := "memo.mp3"; stream_length := 2 * 1024 * 1024; stream := "ID3" |}.

Definition transcribe_memo : TranscribeRequest :=
  {| files_audio := Some memo; form_language := Some "en" |}.

Definition transcribe_ok : transcribe_env :=
  {| OPENAI_API_KEY := Some "sk-test";
     audio_uuid4_hex := "0123456789abcdef0123456789abcdef";
     gettempdir := "/tmp";
     audio_extensions_order := elements ALLOWED_AUDIO_EXTENSIONS;
     audio_save := Saved;
     whisper := inr {| text := "bonjour"; duration := Some "5.2" |} |}.

Definition with_key (k : option string) (env : transcribe_env) : transcribe_env :=
  {| OPENAI_API_KEY := k;
     audio_uuid4_hex := audio_uuid4_hex env;
     gettempdir := gettempdir env;
     audio_extensions_order := audio_extensions_order env;
     audio_save := audio_save env;
     whisper := whisper env |}.

Definition with_whisper (o : exn + Transcript) (env : transcribe_env) : transcribe_env :=
  {| OPENAI_API_KEY := OPENAI_API_KEY env;
     audio_uuid4_hex := audio_uuid4_hex env;
     gettempdir := gettempdir env;
     audio_extensions_order := audio_extensions_order env;
     audio_save := audio_save env;
     whisper := o |}.

Definition with_audio_save (o : save_outcome) (env : transcribe_env) : transcribe_env :=
  {| OPENAI_API_KEY := OPENAI_API_KEY env;
     audio_uuid4_hex := audio_uuid4_hex env;
     gettempdir := gettempdir env;
     audio_extensions_order := audio_extensions_order env;
     audio_save := o;
     whisper := whisper env |}.

(** No credential in the environment. *)
Definition transcribe_no_key : transcribe_env := with_key None transcribe_ok.

(** The service refuses the audio. *)
Definition transcribe_bad_audio : transcribe_env :=
  with_whisper (inl (Exn OtherException "Error code: 400 - Invalid file format."))
    transcribe_ok.

(** The disk is full while the staging file is written. *)
Definition transcribe_disk_full : transcribe_env :=
  with_audio_save
    (SaveFailed (Exn OtherException "[Errno 28] No space left on device") (Some "I"))
    transcribe_ok.

Definition transcribe_of (f : FileStorage) : TranscribeRequest :=
  {| files_audio := Some f; form_language := None |}.

Definition upload_of (f : FileStorage) : UploadRequest :=
  {| files_file := Some f; host_url := "http://localhost:5000/" |}.

Definition pil_ok : pil_env :=
  {| PIL_installed := true;
     thumbs_makedirs := None;
     Image_open_result := inr {| mode := "RGBA" |};
     Image_convert_fault := None;
     Image_thumbnail_fault := None;
     Image_save_result := inr "thumbnail" |}.

Definition pypdf2_ok : pdf_env :=
  {| PyPDF2_installed := true;
     PdfReader_result := inr [inr "Page one"; inr "Page two"] |}.

Definition upload_ok : upload_env :=
  {| UPLOAD_FOLDER := Some "uploads";
     upload_uuid4_hex := "abcdef1234567890abcdef1234567890";
     upload_extensions_order := elements all_allowed;
     werkzeug_secure_filename := secure_filename;
     chat_makedirs := None;
     upload_save := Saved;
     pil := pil_ok;
     pypdf2 := pypdf2_ok |}.

Definition with_pil (p : pil_env) (env : upload_env) : upload_env :=
  {| UPLOAD_FOLDER := UPLOAD_FOLDER env;
     upload_uuid4_hex := upload_uuid4_hex env;
     upload_extensions_order := upload_extensions_order env;
     werkzeug_secure_filename := werkzeug_secure_filename env;
     chat_makedirs := chat_makedirs env;
     upload_save := upload_save env;
     pil := p;
     pypdf2 := pypdf2 env |}.

Definition with_pypdf2 (p : pdf_env) (env : upload_env) : upload_env :=
  {| UPLOAD_FOLDER := UPLOAD_FOLDER env;
     upload_uuid4_hex := upload_uuid4_hex env;
     upload_extensions_order := upload_extensions_order env;
     werkzeug_secure_filename := werkzeug_secure_filename env;
     chat_makedirs := chat_makedirs env;
     upload_save := upload_save env;
     pil := pil env;
     pypdf2 := p |}.

Definition photo : FileStorage :=
  {| filename := "photo.jpg"; stream_length := 51200; stream := "JFIF" |}.

(** Thirty mebibytes of audio. *)
Definition long_talk : FileStorage :=
  {| filename := "talk.wav"; stream_length := 30 * 1024 * 1024; stream := "RIFF" |}.

Definition program : FileStorage :=
  {| filename := "setup.exe"; stream_length := 4096; stream := "MZ" |}.

(** Thirty mebibytes of installer. *)
Definition installer : FileStorage :=
  {| filename := "setup.exe"; stream_length := 30 * 1024 * 1024; stream := "MZ" |}.

(** A part sent with an empty file name. *)
Definition unnamed : FileStorage :=
  {| filename := ""; stream_length := 4096; stream := "data" |}.

(** A name that is all extension. *)
Definition dot_jpg : FileStorage :=
  {| filename := ".jpg"; stream_length := 51200; stream := "JFIF" |}.

Definition report : FileStorage :=
  {| filename := "report.pdf"; stream_length := 204800; stream := "%PDF-1.7" |}.

(** Pillow is not installed. *)
Definition pil_missing : pil_env :=
  {| PIL_installed := false;
     thumbs_makedirs := None;
     Image_open_result := inr {| mode := "RGB" |};
     Image_convert_fault := None;
     Image_thumbnail_fault := None;
     Image_save_result := inr "thumbnail" |}.

(** Pillow opens a greyscale image. *)
Definition pil_greyscale : pil_env :=
  {| PIL_installed := true;
     thumbs_makedirs := None;
     Image_open_result := inr {| mode := "L" |};
     Image_convert_fault := None;
     Image_thumbnail_fault := None;
     Image_save_result := inr "thumbnail" |}.

(** A PDF of twelve pages, each with the text of its number. *)
Definition twelve_pages : pdf_env :=
  {| PyPDF2_installed := true;
     PdfReader_result :=
       inr (inr <$> ["1"; "2"; "3"; "4"; "5"; "6"; "7"; "8"; "9"; "10"; "11"; "12"]) |}.

Definition notes : FileStorage :=
  {| filename := "notes.txt"; stream_length := 1200; stream := "to do" |}.

(** A storage tree holding the PDF of one identifier and the photo of
    another. *)
Definition two_attachments : world :=
  World (Filesystem {[ "uploads/chat/file_abcdef123456.pdf" := "%PDF-1.7";
                       "uploads/chat/file_000000000000.jpg" := "JFIF" ]}
                    {[ "uploads"; "uploads/chat" ]})
        None [] [].

(** A storage tree where one identifier has a photo and a PDF. *)
Definition collision : world :=
  World (Filesystem {[ "uploads/chat/file_abcdef123456.pdf" := "%PDF-1.7";
                       "uploads/chat/file_abcdef123456.jpg" := "JFIF" ]}
                    {[ "uploads"; "uploads/chat" ]})
        None [] [].

End Sample.

(** * Properties *)

(** ** Strings and paths *)

Section string_facts.
#[local] Arguments String.append !_ _ / : simpl nomatch.

Lemma append_nil_r (s : string) : s ++ "" = s.
Proof. induction s as [|c s IH]; simpl; [done | by rewrite IH]. Qed.

Lemma append_assoc (a b c : string) : (a ++ b) ++ c = a ++ b ++ c.
Proof. induction a as [|x a IH]; simpl; [done | by rewrite IH]. Qed.

Lemma append_cancel_l (p a b : string) : p ++ a = p ++ b → a = b.
Proof. induction p as [|x p IH]; simpl; [done | intros [= H]; auto]. Qed.

Lemma eqb_false_ne (a b : string) : String.eqb a b = false ↔ a ≠ b.
Proof. apply String.eqb_neq. Qed.

Lemma contains_append (c : ascii) (a b : string) :
  Py.contains c (a ++ b) = Py.contains c a || Py.contains c b.
Proof.
  induction a as [|x a IH]; simpl; [done |].
  destruct (Ascii.eqb x c); [done | exact IH].
Qed.

Lemma rsplit1_none (c : ascii) (s : string) :
  Py.rsplit1 c s = None ↔ Py.contains c s = false.
Proof.
  induction s as [|d s IH]; simpl; [done |].
  destruct (Py.rsplit1 c s) as [[h t]|].
  - destruct (Ascii.eqb d c); split; try done.
    intros H. apply IH in H. done.
  - destruct (Ascii.eqb d c); split; try done.
    intros _. by apply IH.
Qed.

(** [rsplit] cuts at the last separator: what follows holds none. *)
Lemma rsplit1_some (c : ascii) (s h t : string) :
  Py.rsplit1 c s = Some (h, t) →
  s = h ++ String c t ∧ Py.contains c t = false.
Proof.
  revert h t. induction s as [|d s IH]; simpl; [done |]. intros h t.
  destruct (Py.rsplit1 c s) as [[h' t']|] eqn:E.
  - intros [= <- <-]. destruct (IH _ _ eq_refl) as [-> ?]. done.
  - destruct (Ascii.eqb_spec d c) as [->|]; [|done].
    intros [= <- <-]. split; [done |]. by apply rsplit1_none.
Qed.

(** ... and a text with no separator after a separator is what it finds. *)
Lemma rsplit1_append (c : ascii) (h t : string) :
  Py.contains c t = false → Py.rsplit1 c (h ++ String c t) = Some (h, t).
Proof.
  intros Ht. induction h as [|d h IH]; simpl.
  - apply rsplit1_none in Ht. rewrite Ht. by rewrite Ascii.eqb_refl.
  - by rewrite IH.
Qed.

Lemma dotted_name_inj (a b e1 e2 : string) :
  Py.contains "." e1 = false → Py.contains "." e2 = false →
  a ++ "." ++ e1 = b ++ "." ++ e2 → a = b ∧ e1 = e2.
Proof.
  intros H1 H2 E.
  pose proof (rsplit1_append "." a e1 H1) as R1.
  pose proof (rsplit1_append "." b e2 H2) as R2.
  simpl in E. rewrite E in R1. rewrite R1 in R2. by injection R2.
Qed.

Lemma endswith_append (c : ascii) (a b : string) :
  b ≠ "" → Py.endswith c (a ++ b) = Py.endswith c b.
Proof.
  intros Hb. induction a as [|x a IH]; simpl; [done |].
  destruct (a ++ b) eqn:E; [|done].
  destruct a; simpl in E; [subst; done | done].
Qed.

Lemma truthy_append_r (a b : string) : Py.truthy b = true → Py.truthy (a ++ b) = true.
Proof. destruct a; simpl; [done | done]. Qed.

(** A folder name made by joining ends in the part joined. *)
Lemma join_relative_shape (a b : string) :
  Py.startswith "/" b = false →
  ∃ sep, Py.os_path_join a b = a ++ sep ++ b ∧ (sep = "" ∨ sep = "/").
Proof.
  intros Hb. unfold Py.os_path_join. rewrite Hb.
  destruct (negb (Py.truthy a) || Py.endswith "/" a).
  - exists "". split; [done | by left].
  - exists "/". split; [done | by right].
Qed.

Lemma join_under_folder (a b n : string) :
  Py.startswith "/" b = false → b ≠ "" → Py.endswith "/" b = false →
  Py.startswith "/" n = false →
  Py.os_path_join (Py.os_path_join a b) n = Py.os_path_join a b ++ "/" ++ n.
Proof.
  intros Hb Hne He Hn.
  destruct (join_relative_shape a b Hb) as (sep & -> & _).
  unfold Py.os_path_join at 1. rewrite Hn.
  rewrite <- append_assoc.
  rewrite (endswith_append _ _ b Hne), He.
  rewrite truthy_append_r; [done | by destruct b].
Qed.

Lemma artifact_path_eq (cfg : option string) (file_id ext : string) :
  Py.startswith "/" file_id = false →
  artifact_path cfg file_id ext = chat_folder cfg ++ "/" ++ file_id ++ "." ++ ext.
Proof.
  intros Hs. unfold artifact_path, chat_folder.
  apply join_under_folder; try done.
  destruct file_id; done.
Qed.

Lemma thumbnail_path_eq (cfg : option string) (file_id ext : string) :
  Py.startswith "/" file_id = false →
  thumbnail_path cfg file_id ext =
    chat_folder cfg ++ "/" ++ "thumbs/" ++ file_id ++ "_thumb." ++ ext.
Proof.
  intros Hs. unfold thumbnail_path, chat_folder.
  rewrite (join_under_folder _ "thumbs") by (try done; by destruct file_id).
  rewrite (join_under_folder _ "chat") by done.
  by rewrite !append_assoc.
Qed.

Lemma slash_free_relative (s : string) : slash_free s → Py.startswith "/" s = false.
Proof.
  unfold slash_free. destruct s as [|c s]; simpl; [done |].
  by destruct (Ascii.eqb c "/").
Qed.

Lemma length_append (a b : string) :
  String.length (a ++ b) = (String.length a + String.length b)%nat.
Proof. induction a as [|c a IH]; simpl; [done | by rewrite IH]. Qed.

Lemma append_cancel_r (a b s : string) : a ++ s = b ++ s → a = b.
Proof.
  revert b. induction a as [|c a IH]; intros [|d b] H; simpl in H.
  - done.
  - apply (f_equal String.length) in H. simpl in H. rewrite length_append in H. lia.
  - apply (f_equal String.length) in H. simpl in H. rewrite length_append in H. lia.
  - injection H as -> H. by rewrite (IH b H).
Qed.

Lemma thumbnail_name_inj (a b e1 e2 : string) :
  Py.contains "." e1 = false → Py.contains "." e2 = false →
  a ++ "_thumb." ++ e1 = b ++ "_thumb." ++ e2 → a = b ∧ e1 = e2.
Proof.
  intros D1 D2 E.
  assert (∀ i e, i ++ "_thumb." ++ e = (i ++ "_thumb") ++ "." ++ e) as Hsplit.
  { intros i e. by rewrite append_assoc. }
  rewrite !Hsplit in E.
  apply dotted_name_inj in E as [E ->]; try done.
  by apply append_cancel_r in E as ->.
Qed.

(** Two artifacts share a path only when they share identifier and extension. *)
Lemma artifact_path_inj (cfg : option string) (id1 id2 e1 e2 : string) :
  slash_free id1 → slash_free id2 →
  Py.contains "." e1 = false → Py.contains "." e2 = false →
  artifact_path cfg id1 e1 = artifact_path cfg id2 e2 → id1 = id2 ∧ e1 = e2.
Proof.
  intros H1 H2 D1 D2.
  rewrite !artifact_path_eq by by apply slash_free_relative.
  intros E. apply append_cancel_l in E. injection E as E.
  by apply dotted_name_inj.
Qed.

Lemma thumbnail_path_inj (cfg : option string) (id1 id2 e1 e2 : string) :
  slash_free id1 → slash_free id2 →
  Py.contains "." e1 = false → Py.contains "." e2 = false →
  thumbnail_path cfg id1 e1 = thumbnail_path cfg id2 e2 → id1 = id2 ∧ e1 = e2.
Proof.
  intros H1 H2 D1 D2.
  rewrite !thumbnail_path_eq by by apply slash_free_relative.
  intros E. apply append_cancel_l in E. injection E as E.
  by apply thumbnail_name_inj in E.
Qed.

Lemma artifact_name_not_thumbnail (a e rest : string) :
  slash_free a → Py.contains "/" e = false →
  a ++ "." ++ e ≠ "thumbs/" ++ rest.
Proof.
  intros Ha He E. apply (f_equal (Py.contains "/")) in E.
  rewrite !contains_append, Ha, He in E. done.
Qed.

(** An artifact of a one-segment identifier never sits at a thumbnail path. *)
Lemma artifact_not_thumbnail (cfg : option string) (id1 id2 e1 e2 : string) :
  slash_free id1 → Py.startswith "/" id2 = false → Py.contains "/" e1 = false →
  artifact_path cfg id1 e1 ≠ thumbnail_path cfg id2 e2.
Proof.
  intros H1 H2 S1.
  rewrite artifact_path_eq by by apply slash_free_relative.
  rewrite thumbnail_path_eq by done.
  intros E. apply append_cancel_l in E. injection E as E.
  by apply artifact_name_not_thumbnail in E.
Qed.

(** The identifiers [upload_file] issues start with [file_]. *)
Lemma upload_id_relative (x : string) : Py.startswith "/" ("file_" ++ x) = false.
Proof. reflexivity. Qed.

Lemma artifact_path_same_id (cfg : option string) (file_id e1 e2 : string) :
  Py.startswith "/" file_id = false →
  artifact_path cfg file_id e1 = artifact_path cfg file_id e2 → e1 = e2.
Proof.
  intros Hs. rewrite !artifact_path_eq by done. intros E.
  apply append_cancel_l in E. injection E as E.
  apply append_cancel_l in E. by injection E.
Qed.

Lemma upload_artifact_not_thumbnail (cfg : option string) (x e1 id2 e2 : string) :
  Py.startswith "/" id2 = false →
  artifact_path cfg ("file_" ++ x) e1 ≠ thumbnail_path cfg id2 e2.
Proof.
  intros Hs. rewrite artifact_path_eq by done. rewrite thumbnail_path_eq by done.
  intros E. apply append_cancel_l in E. by injection E.
Qed.

End string_facts.

(** ** Running statements *)

Ltac run :=
  unfold route, try_finally, try_except, mbind, mret, M_bind, M_ret, bind, ret,
    raise, fault, outcome, call, logger_error, logger_warning, item1,
    os_path_exists, os_remove, open_rb, write_file, os_makedirs,
    FileStorage_save in *;
  simpl in *.

Ltac frame := unfold with_log, with_call, with_dirs, with_files, with_client; simpl.

Lemma with_files_id (w : world) (f : gmap string string → gmap string string) :
  f (files (fs w)) = files (fs w) → with_files f w = w.
Proof. destruct w as [[fl d] c l k]. unfold with_files. simpl. by intros ->. Qed.

(** ** C1: the staging file is gone when [transcribe_audio] returns *)

(** The [finally] clause never raises and leaves no file at the path. *)
Lemma transcribe_finally_spec (p : string) (w : world) :
  transcribe_finally p w = (inr tt, with_files (delete p) w).
Proof.
  unfold transcribe_finally. run.
  case_bool_decide as Hp.
  - destruct Hp as [data Hp]. by rewrite Hp.
  - apply eq_None_not_Some in Hp.
    by rewrite with_files_id by by apply delete_id.
Qed.

(** The body of the [try] writes at the staging path or nowhere. *)
Lemma transcribe_try_fs (f : FileStorage) (lang p : string) (env : transcribe_env)
    (w : world) :
  ∃ o : option string,
    fs (transcribe_try f lang p env w).2 =
      Filesystem (from_option (λ x, <[p := x]>) id o (files (fs w))) (dirs (fs w)).
Proof.
  unfold transcribe_try, get_openai_client. run.
  destruct (audio_save env) as [|e [part|]]; simpl;
    [| by exists (Some part) | exists None; by destruct (fs w)].
  exists (Some (stream f)).
  destruct (_openai_client w) as [c|]; simpl.
  - rewrite lookup_insert_eq. simpl. by destruct (whisper env).
  - destruct (OPENAI_API_KEY env) as [key|]; simpl; [| done].
    destruct (Py.truthy key); simpl; [| done].
    rewrite lookup_insert_eq. simpl. by destruct (whisper env).
Qed.

Lemma transcribe_staged_fs (f : FileStorage) (lang p : string) (env : transcribe_env)
    (w : world) :
  fs (transcribe_staged f lang p env w).2 =
    Filesystem (delete p (files (fs w))) (dirs (fs w)).
Proof.
  unfold transcribe_staged, try_finally.
  destruct (transcribe_try_fs f lang p env w) as [o H].
  destruct (transcribe_try f lang p env w) as [r w1].
  rewrite transcribe_finally_spec. simpl in *. rewrite H. simpl.
  f_equal. destruct o as [x|]; simpl; [apply delete_insert_eq | done].
Qed.

Lemma transcribe_except_fs (e : exn) (w : world) :
  fs (transcribe_except e w).2 = fs w.
Proof. unfold transcribe_except. by destruct (exn_class_of e). Qed.

Lemma transcribe_route_fs (f : FileStorage) (lang p : string) (env : transcribe_env)
    (w : world) :
  fs (route (transcribe_staged f lang p env) transcribe_except w).2 =
    Filesystem (delete p (files (fs w))) (dirs (fs w)).
Proof.
  unfold route. pose proof (transcribe_staged_fs f lang p env w) as H.
  destruct (transcribe_staged f lang p env w) as [[e|r] w1]; simpl in *; [| done].
  by rewrite transcribe_except_fs.
Qed.

(** A request that passes the four admission checks runs the staged part. *)
Lemma transcribe_audio_staged (req : TranscribeRequest) (env : transcribe_env)
    (f : FileStorage) (w : world) :
  files_audio req = Some f →
  filename f ≠ "" →
  allowed_file (filename f) ALLOWED_AUDIO_EXTENSIONS = true →
  stream_length f ≤ MAX_AUDIO_SIZE →
  ∃ e, Py.rsplit1_last "." (filename f) = Some e ∧
    transcribe_audio req env w =
      route (transcribe_staged f (default "fr" (form_language req))
               (temp_path_of env (Py.lower e)) env)
            transcribe_except w.
Proof.
  intros Hf Hname Hallowed Hsize. unfold transcribe_audio. rewrite Hf.
  apply eqb_false_ne in Hname. rewrite Hname, Hallowed. simpl.
  destruct (Z.gtb_spec (stream_length f) MAX_AUDIO_SIZE) as [?|_]; [lia |].
  unfold allowed_file in Hallowed.
  destruct (Py.rsplit1_last "." (filename f)) as [e|] eqn:E.
  - exists e. split; [done |]. run. done.
  - by rewrite andb_false_r in Hallowed.
Qed.

(** C1.  A transcription request that passes admission is staged at
    [temp_path]; whatever happens next (the write fails half way, the
    credential is missing, the service raises, or the transcript comes back),
    no file is at [temp_path] when [transcribe_audio] returns, and every
    other path of the filesystem is as it was. *)
Theorem C1_staging_file_removed (req : TranscribeRequest) (env : transcribe_env)
    (f : FileStorage) (w : world) :
  files_audio req = Some f →
  filename f ≠ "" →
  allowed_file (filename f) ALLOWED_AUDIO_EXTENSIONS = true →
  stream_length f ≤ MAX_AUDIO_SIZE →
  ∃ e, Py.rsplit1_last "." (filename f) = Some e ∧
    let temp_path := temp_path_of env (Py.lower e) in
    let w' := (transcribe_audio req env w).2 in
    files (fs w') !! temp_path = None ∧
    files (fs w') = delete temp_path (files (fs w)) ∧
    dirs (fs w') = dirs (fs w).
Proof.
  intros Hf Hname Hallowed Hsize.
  destruct (transcribe_audio_staged req env f w Hf Hname Hallowed Hsize) as (e & He & ->).
  exists e. split; [done |]. simpl.
  rewrite transcribe_route_fs. simpl.
  split; [apply lookup_delete_eq | done].
Qed.

(** C1 at work: the memo is transcribed, refused by the service, met by a
    full disk, or no credential is configured. *)
Lemma C1_staging_file_removed_witness :
  ∃ e, Py.rsplit1_last "." "memo.mp3" = Some e ∧
    let temp_path := temp_path_of Sample.transcribe_bad_audio (Py.lower e) in
    let w' := (transcribe_audio Sample.transcribe_memo Sample.transcribe_bad_audio
                 Sample.empty_world).2 in
    files (fs w') !! temp_path = None ∧
    files (fs w') = delete temp_path ∅ ∧
    dirs (fs w') = ∅.
Proof.
  apply (C1_staging_file_removed Sample.transcribe_memo Sample.transcribe_bad_audio
           Sample.memo Sample.empty_world).
  - reflexivity.
  - discriminate.
  - vm_compute. reflexivity.
  - vm_compute. discriminate.
Defined.

(** ** C2: the answers to the faults of a transcription *)

(** A fault of the staged part is what the body of the [try] raises; the
    body logs nothing. *)
Lemma transcribe_try_fault (f : FileStorage) (lang p : string) (env : transcribe_env)
    (w : world) (cat : fault_category) (e : exn) :
  transcribe_fault env w = Some (cat, e) →
  (transcribe_try f lang p env w).1 = inl e ∧
  logged (transcribe_try f lang p env w).2 = logged w.
Proof.
  unfold transcribe_fault, credential_missing, transcribe_try, get_openai_client. run.
  destruct (audio_save env) as [|e' [part|]]; simpl; [| by intros [= _ <-].. ].
  destruct (_openai_client w) as [c|]; simpl.
  - rewrite lookup_insert_eq. simpl.
    destruct (whisper env) as [e'|t]; simpl; [by intros [= _ <-] | done].
  - destruct (OPENAI_API_KEY env) as [key|]; simpl; [| by intros [= _ <-]].
    destruct (Py.truthy key); simpl; [| by intros [= _ <-]].
    rewrite lookup_insert_eq. simpl.
    destruct (whisper env) as [e'|t]; simpl; [by intros [= _ <-] | done].
Qed.

Lemma transcribe_fault_configuration (env : transcribe_env) (w : world) (e : exn) :
  transcribe_fault env w = Some (ConfigurationFault, e) →
  e = Exn ValueError missing_key_message.
Proof.
  unfold transcribe_fault.
  destruct (audio_save env); [| done].
  destruct (credential_missing env w); [by intros [= <-] |].
  by destruct (whisper env).
Qed.

(** C2 fails as stated: a missing credential, a refusal by the service and
    a full disk are three faults of three categories, and each is answered
    with status 500. *)
Lemma C2_counterexample :
  let answer env := (transcribe_audio Sample.transcribe_memo env Sample.empty_world).1 in
  (fst <$> transcribe_fault Sample.transcribe_no_key Sample.empty_world
     = Some ConfigurationFault ∧
   fst <$> transcribe_fault Sample.transcribe_bad_audio Sample.empty_world
     = Some ServiceFault ∧
   fst <$> transcribe_fault Sample.transcribe_disk_full Sample.empty_world
     = Some InternalFault) ∧
  status (answer Sample.transcribe_no_key) = status (answer Sample.transcribe_bad_audio) ∧
  status (answer Sample.transcribe_bad_audio) = status (answer Sample.transcribe_disk_full) ∧
  status (answer Sample.transcribe_no_key) = 500.
Proof. vm_compute. repeat split. Qed.

(** C2, amended.  Every fault of a staged transcription is answered with
    status 500, whatever its category.  What the handler tells apart is the
    class of the exception, not the category of the fault: the error text is
    the message of the exception itself when it is a [ValueError], which the
    missing credential is and which a fault of the save or of the service
    may be too, and nothing is logged then; an exception of any other class
    is logged and its message is prefixed. *)
Theorem C2_faults_answered_500 (req : TranscribeRequest) (env : transcribe_env)
    (f : FileStorage) (w : world) (cat : fault_category) (e : exn) :
  files_audio req = Some f →
  filename f ≠ "" →
  allowed_file (filename f) ALLOWED_AUDIO_EXTENSIONS = true →
  stream_length f ≤ MAX_AUDIO_SIZE →
  transcribe_fault env w = Some (cat, e) →
  let r := transcribe_audio req env w in
  status r.1 = 500 ∧
  r.1.1 = JsonError (match exn_class_of e with
                     | ValueError => exn_str e
                     | _ => "Erreur lors de la transcription: " ++ exn_str e
                     end) ∧
  logged r.2 = (logged w ++ match exn_class_of e with
                            | ValueError => []
                            | _ => [(ERROR, "Erreur transcription: " +:+ exn_str e)]
                            end)%list ∧
  (cat = ConfigurationFault → e = Exn ValueError missing_key_message).
Proof.
  intros Hf Hname Hallowed Hsize Hfault.
  destruct (transcribe_audio_staged req env f w Hf Hname Hallowed Hsize) as (x & _ & ->).
  simpl. unfold route, transcribe_staged, try_finally.
  destruct (transcribe_try_fault f (default "fr" (form_language req))
              (temp_path_of env (Py.lower x)) env w cat e Hfault) as [Hr Hl].
  destruct (transcribe_try _ _ _ _ w) as [r w1]. simpl in Hr, Hl. subst r.
  rewrite transcribe_finally_spec. unfold transcribe_except.
  split; [by destruct (exn_class_of e) |].
  split; [by destruct (exn_class_of e) |].
  split.
  - destruct (exn_class_of e); simpl; rewrite Hl; [by rewrite app_nil_r | done..].
  - intros ->. by eapply transcribe_fault_configuration.
Qed.

(** C2 at work on the refusal by the service. *)
Lemma C2_faults_answered_500_witness :
  let r := transcribe_audio Sample.transcribe_memo Sample.transcribe_bad_audio
             Sample.empty_world in
  status r.1 = 500 ∧
  r.1.1 = JsonError "Erreur lors de la transcription: Error code: 400 - Invalid file format." ∧
  logged r.2 = [(ERROR, "Erreur transcription: Error code: 400 - Invalid file format.")] ∧
  (ServiceFault = ConfigurationFault →
   Exn OtherException "Error code: 400 - Invalid file format."
     = Exn ValueError missing_key_message).
Proof.
  apply (C2_faults_answered_500 Sample.transcribe_memo Sample.transcribe_bad_audio
           Sample.memo Sample.empty_world ServiceFault
           (Exn OtherException "Error code: 400 - Invalid file format.")).
  - reflexivity.
  - discriminate.
  - vm_compute. reflexivity.
  - vm_compute. discriminate.
  - reflexivity.
Defined.

(** ** Thumbnails and PDF text never fail an upload *)

Lemma truthy_join (a b : string) : Py.truthy b = true → Py.truthy (Py.os_path_join a b) = true.
Proof.
  intros Hb. unfold Py.os_path_join.
  destruct (Py.startswith "/" b); [done |].
  destruct (negb (Py.truthy a) || Py.endswith "/" a); by apply truthy_append_r.
Qed.

Ltac thumbnail_step :=
  eexists _, _; split; [done |]; split; [done |];
  frame; rewrite <- ?app_assoc; split; [reflexivity | done].

(** [create_thumbnail] always returns: the path of the thumbnail when it was
    made, [None] otherwise; it writes the thumbnail or nothing, and asks no
    page of any PDF. *)
Lemma create_thumbnail_spec (image_path upload_folder file_id ext : string)
    (pil : pil_env) (w : world) :
  let thumb_path :=
    Py.os_path_join (Py.os_path_join upload_folder "thumbs") (file_id ++ "_thumb." ++ ext) in
  ∃ w' cs,
    create_thumbnail image_path upload_folder file_id ext pil w =
      (inr (if thumbnail_made pil then Some thumb_path else None), w') ∧
    files (fs w') =
      from_option (λ x, <[thumb_path := x]>) id (thumbnail_bytes pil) (files (fs w)) ∧
    calls w' = (calls w ++ cs)%list ∧ page_reads cs = 0%nat.
Proof.
  unfold create_thumbnail, thumbnail_bytes, thumbnail_made. run.
  destruct (PIL_installed pil); simpl.
  2:{ eexists _, []. split; [done |]. split; [done |]. by rewrite app_nil_r. }
  destruct (thumbs_makedirs pil) as [e|]; simpl.
  { destruct (exn_class_of e); simpl;
      (eexists _, []; split; [done |]; split; [done |]; by rewrite app_nil_r). }
  destruct (Image_open_result pil) as [e|img]; simpl.
  { destruct (exn_class_of e); simpl;
      (eexists _, [_]; split; [done |]; split; [done | done]). }
  destruct (bool_decide (mode img ∈ ["RGBA"; "P"])); simpl;
    [destruct (Image_convert_fault pil) as [e|]; simpl |];
    [destruct (exn_class_of e); simpl; thumbnail_step .. | |];
    (destruct (Image_thumbnail_fault pil) as [e|]; simpl;
     [destruct (exn_class_of e); simpl; thumbnail_step .. |]);
    (destruct (Image_save_result pil) as [e|data]; simpl;
     [destruct (exn_class_of e); simpl; thumbnail_step .. | thumbnail_step]).
Qed.

Lemma page_reads_app (a b : list capability_call) :
  page_reads (a ++ b) = (page_reads a + page_reads b)%nat.
Proof. unfold page_reads. by rewrite List.filter_app, length_app. Qed.

Lemma page_reads_none (cs : list capability_call) :
  page_reads cs = 0%nat → pages_within 0 cs.
Proof.
  unfold page_reads, pages_within. induction cs as [|c cs IH]; intros H i Hin.
  - by apply elem_of_nil in Hin.
  - apply elem_of_cons in Hin as [<-|Hin]; [done |].
    apply (IH ltac:(simpl in H; destruct (is_page_read c); [done | exact H]) i Hin).
Qed.

(** The loop over the pages computes [join_pages], asks each page it is
    given at most once, under its own number, and touches neither the files
    nor the log. *)
Lemma extract_pages_spec (pages : list (exn + string)) (i : nat) (text : string)
    (w : world) :
  ∃ w' cs,
    extract_pages pages i text w = (join_pages pages text, w') ∧
    fs w' = fs w ∧ logged w' = logged w ∧
    calls w' = (calls w ++ cs)%list ∧ (page_reads cs ≤ length pages)%nat ∧
    pages_within (i + length pages) cs.
Proof.
  revert i text w. induction pages as [|page rest IH]; intros i text w; simpl.
  - exists w, []. run. rewrite app_nil_r. repeat split; try done.
    intros j Hj. by apply elem_of_nil in Hj.
  - run. destruct page as [e|t]; simpl.
    + eexists _, [Page_extract_text i]. repeat split.
      * unfold page_reads. simpl. lia.
      * intros j Hj. apply list_elem_of_singleton in Hj as [= ->]. lia.
    + destruct (IH (S i) (text ++ t ++ newline) (with_call (Page_extract_text i) w))
        as (w' & cs & -> & Hfs & Hlog & Hcalls & Hreads & Hwithin).
      exists w', (Page_extract_text i :: cs). repeat split; try done.
      * rewrite Hcalls. frame. by rewrite <- app_assoc.
      * unfold page_reads in *. simpl. lia.
      * intros j Hj. apply elem_of_cons in Hj as [[= ->]|Hj]; [lia |].
        apply Hwithin in Hj. lia.
Qed.

(** [extract_pdf_text] always returns, and returns [pdf_text]; it asks
    at most ten pages for their text, none beyond the tenth, and writes
    nothing. *)
Lemma extract_pdf_text_spec (pdf_path : string) (pdf : pdf_env) (w : world) :
  ∃ w' cs,
    extract_pdf_text pdf_path pdf w = (inr (pdf_text pdf), w') ∧
    fs w' = fs w ∧
    calls w' = (calls w ++ cs)%list ∧ (page_reads cs ≤ 10)%nat ∧ pages_within 10 cs.
Proof.
  unfold extract_pdf_text, pdf_text. run.
  destruct (PyPDF2_installed pdf); simpl.
  2:{ eexists _, []. repeat split; [by rewrite app_nil_r | unfold page_reads; simpl; lia |].
      intros j Hj. by apply elem_of_nil in Hj. }
  destruct (PdfReader_result pdf) as [e|pages]; simpl.
  { destruct (exn_class_of e); simpl;
      (eexists _, [_]; repeat split; [unfold page_reads; simpl; lia |];
       intros j Hj; by apply list_elem_of_singleton in Hj). }
  destruct (extract_pages_spec (take 10 pages) 0 "" (with_call (PdfReader_open pdf_path) w))
    as (w' & cs & -> & Hfs & Hlog & Hcalls & Hreads & Hwithin).
  rewrite length_take in Hreads, Hwithin.
  assert (page_reads (PdfReader_open pdf_path :: cs) ≤ 10)%nat as Hten.
  { unfold page_reads in *. simpl. lia. }
  assert (pages_within 10 (PdfReader_open pdf_path :: cs)) as Hidx.
  { intros j Hj. apply elem_of_cons in Hj as [|Hj]; [done |].
    apply Hwithin in Hj. lia. }
  destruct (join_pages (take 10 pages) "") as [e|text]; simpl.
  - destruct (exn_class_of e); simpl;
      (eexists _, _; split; [reflexivity |]; split; [by frame |];
       split; [| split; [exact Hten | exact Hidx]]; frame; rewrite Hcalls; frame;
       by rewrite <- app_assoc).
  - eexists _, _. split; [reflexivity |]. split; [done |].
    split; [| split; [exact Hten | exact Hidx]].
    rewrite Hcalls. frame. by rewrite <- app_assoc.
Qed.

(** ** The upload once admitted *)

(** With the folder made and the original saved, [upload_admitted] returns
    the attachment record: derivation decides only whether [thumbnailURL]
    and [extractedText] are there.  The original is on storage, with the
    thumbnail when one was made. *)
Lemma upload_admitted_spec (f : FileStorage) (size : Z) (req : UploadRequest)
    (env : upload_env) (w : world) :
  chat_makedirs env = None →
  upload_save env = Saved →
  let cfg := UPLOAD_FOLDER env in
  let original_filename := werkzeug_secure_filename env (filename f) in
  let ext := extension_or_empty original_filename in
  let file_id := "file_" ++ Py.prefix 12 (upload_uuid4_hex env) in
  let file_type := get_file_type original_filename in
  let base_url := Py.rstrip_char "/" (host_url req) in
  let made := String.eqb file_type "image" && thumbnail_made (pil env) in
  ∃ w' cs,
    upload_admitted f size req env w =
      (inr (JsonFile {|
              id_ := file_id;
              type_ := file_type;
              fileName := original_filename;
              fileURL := base_url ++ "/uploads/chat/" ++ file_id ++ "." ++ ext;
              thumbnailURL :=
                if made
                then Some (base_url ++ "/uploads/chat/thumbs/" ++ file_id ++ "_thumb." ++ ext)
                else None;
              fileSize := size;
              mimeType := default "application/octet-stream" (mime_types !! ext);
              extractedText :=
                if String.eqb ext "pdf" then response_text (pdf_text (pypdf2 env))
                else None
            |}, 200), w') ∧
    files (fs w') =
      from_option (λ x, <[thumbnail_path cfg file_id ext := x]>) id
        (if made then thumbnail_bytes (pil env) else None)
        (<[artifact_path cfg file_id ext := stream f]> (files (fs w))) ∧
    calls w' = (calls w ++ cs)%list ∧
    (page_reads cs ≤ 10)%nat ∧ pages_within 10 cs ∧
    (String.eqb ext "pdf" = false → page_reads cs = 0%nat).
Proof.
  intros Hmk Hsave. simpl. unfold upload_admitted.
  unfold mbind at 1, M_bind at 1, bind at 1. unfold os_makedirs at 1. rewrite Hmk.
  unfold mbind at 1, M_bind at 1, bind at 1. unfold FileStorage_save at 1. rewrite Hsave.
  unfold artifact_path, thumbnail_path, chat_folder.
  set (original_filename := werkzeug_secure_filename env (filename f)).
  set (ext := extension_or_empty original_filename).
  set (file_id := "file_" ++ Py.prefix 12 (upload_uuid4_hex env)).
  set (chat := Py.os_path_join (default "uploads" (UPLOAD_FOLDER env)) "chat").
  set (file_path := Py.os_path_join chat (file_id ++ "." ++ ext)).
  set (w1 := with_files _ _).
  assert (files (fs w1) = <[file_path := stream f]> (files (fs w))) as Hw1 by done.
  assert (calls w1 = calls w) as Hc1 by done.
  clearbody w1.
  unfold mbind at 1, M_bind at 1, bind at 1.
  (* the thumbnail *)
  assert (∃ w2 cs2,
    (if String.eqb (get_file_type original_filename) "image"
     then thumb ← create_thumbnail file_path chat file_id ext (pil env);
          if from_option Py.truthy false thumb
          then mret (Some (Py.rstrip_char "/" (host_url req) ++ "/uploads/chat/thumbs/"
                           ++ file_id ++ "_thumb." ++ ext))
          else mret thumb
     else mret None) w1 =
    (inr (if String.eqb (get_file_type original_filename) "image"
             && thumbnail_made (pil env)
          then Some (Py.rstrip_char "/" (host_url req) ++ "/uploads/chat/thumbs/"
                     ++ file_id ++ "_thumb." ++ ext)
          else None), w2) ∧
    files (fs w2) =
      from_option
        (λ x, <[Py.os_path_join (Py.os_path_join chat "thumbs")
                  (file_id ++ "_thumb." ++ ext) := x]>) id
        (if String.eqb (get_file_type original_filename) "image"
            && thumbnail_made (pil env)
         then thumbnail_bytes (pil env) else None)
        (files (fs w1)) ∧
    calls w2 = (calls w1 ++ cs2)%list ∧ page_reads cs2 = 0%nat) as (w2 & cs2 & -> & Hw2 & Hc2 & Hr2).
  { destruct (String.eqb (get_file_type original_filename) "image"); simpl.
    - destruct (create_thumbnail_spec file_path chat file_id ext (pil env) w1)
        as (w2 & cs2 & Hct & Hfiles & Hcalls & Hreads).
      exists w2, cs2. unfold mbind, M_bind, bind. rewrite Hct.
      destruct (thumbnail_made (pil env)) eqn:Hmade; simpl.
      + rewrite truthy_join; [done |].
        apply truthy_append_r. done.
      + unfold thumbnail_bytes in Hfiles. rewrite Hmade in Hfiles. done.
    - exists w1, []. run. by rewrite app_nil_r. }
  unfold mbind at 1, M_bind at 1, bind at 1.
  (* the text of a PDF *)
  assert (∃ w3 cs3,
    (if String.eqb ext "pdf" then extract_pdf_text file_path (pypdf2 env) else mret None) w2 =
    (inr (if String.eqb ext "pdf" then pdf_text (pypdf2 env) else None), w3) ∧
    fs w3 = fs w2 ∧ calls w3 = (calls w2 ++ cs3)%list ∧ (page_reads cs3 ≤ 10)%nat ∧
    pages_within 10 cs3 ∧
    (String.eqb ext "pdf" = false → page_reads cs3 = 0%nat))
    as (w3 & cs3 & Hpdf & Hw3 & Hc3 & Hr3 & Hi3 & Hr3').
  { destruct (String.eqb ext "pdf"); simpl.
    - destruct (extract_pdf_text_spec file_path (pypdf2 env) w2)
        as (w3 & cs3 & Hx & Hfs & Hcalls & Hreads & Hidx).
      exists w3, cs3. by rewrite Hx.
    - exists w2, []. run. rewrite app_nil_r. repeat split; try done.
      + unfold page_reads. simpl. lia.
      + intros j Hj. by apply elem_of_nil in Hj. }
  rewrite Hpdf.
  exists w3, (cs2 ++ cs3)%list. run.
  split.
  - do 3 f_equal. f_equal.
    unfold response_text.
    destruct (String.eqb ext "pdf"); [| done].
    destruct (pdf_text (pypdf2 env)) as [t|]; simpl; [| done].
    by destruct (Py.truthy t).
  - rewrite Hw3, Hw2, Hw1. split; [done |].
    rewrite Hc3, Hc2, Hc1, <- app_assoc. split; [done |].
    rewrite page_reads_app, Hr2. split; [lia |]. split.
    + intros j Hj. apply elem_of_app in Hj as [Hj|Hj]; [| by apply Hi3].
      apply (page_reads_none cs2 Hr2) in Hj. lia.
    + intros H. by rewrite (Hr3' H).
Qed.

(** A fault while the folder is made or the original is saved ends the
    upload with status 500. *)
Lemma upload_admitted_fault (f : FileStorage) (size : Z) (req : UploadRequest)
    (env : upload_env) (w : world) :
  chat_makedirs env ≠ None ∨ upload_save env ≠ Saved →
  ∃ e w', upload_admitted f size req env w = (inl e, w').
Proof.
  intros H. unfold upload_admitted.
  unfold mbind at 1, M_bind at 1, bind at 1. unfold os_makedirs at 1.
  destruct (chat_makedirs env) as [e|]; [by eexists _, _ |].
  unfold mbind at 1, M_bind at 1, bind at 1. unfold FileStorage_save at 1.
  destruct (upload_save env) as [|e [part|]]; [by destruct H | by eexists _, _..].
Qed.

Lemma upload_route_status (f : FileStorage) (size : Z) (req : UploadRequest)
    (env : upload_env) (w : world) :
  let r := (route (upload_admitted f size req env) upload_except w).1 in
  status r = 200 ∨ status r = 500.
Proof.
  simpl. unfold route.
  destruct (chat_makedirs env) as [e|] eqn:Hmk.
  { destruct (upload_admitted_fault f size req env w) as (e' & w' & ->);
      [left; by rewrite Hmk | by right]. }
  destruct (upload_save env) as [|e part] eqn:Hsave.
  - destruct (upload_admitted_spec f size req env w Hmk Hsave) as (w' & cs & -> & _).
    by left.
  - destruct (upload_admitted_fault f size req env w) as (e' & w' & ->);
      [right; by rewrite Hsave | by right].
Qed.

Lemma transcribe_route_status (f : FileStorage) (lang p : string) (env : transcribe_env)
    (w : world) :
  let r := (route (transcribe_staged f lang p env) transcribe_except w).1 in
  status r = 200 ∨ status r = 500.
Proof.
  simpl. unfold route, transcribe_staged, try_finally.
  assert (∀ r w1, transcribe_try f lang p env w = (inr r, w1) → status r = 200) as H.
  { unfold transcribe_try, get_openai_client. run. intros r w1.
    destruct (audio_save env) as [|e [part|]]; simpl; [| done..].
    destruct (_openai_client w) as [c|]; simpl.
    - rewrite lookup_insert_eq. simpl.
      destruct (whisper env); simpl; [done | by intros [= <- _]].
    - destruct (OPENAI_API_KEY env) as [key|]; simpl; [| done].
      destruct (Py.truthy key); simpl; [| done].
      rewrite lookup_insert_eq. simpl.
      destruct (whisper env); simpl; [done | by intros [= <- _]]. }
  destruct (transcribe_try f lang p env w) as [[e|r] w1].
  - rewrite transcribe_finally_spec. right. unfold transcribe_except.
    by destruct (exn_class_of e).
  - rewrite transcribe_finally_spec. left. by eapply H.
Qed.

(** ** C3: the size check *)

Lemma upload_file_admitted (req : UploadRequest) (env : upload_env)
    (f : FileStorage) (w : world) :
  files_file req = Some f →
  filename f ≠ "" →
  allowed_file (filename f) all_allowed = true →
  stream_length f ≤ MAX_FILE_SIZE →
  upload_file req env w =
    route (upload_admitted f (stream_length f) req env) upload_except w.
Proof.
  intros Hf Hname Hallowed Hsize. unfold upload_file. rewrite Hf.
  apply eqb_false_ne in Hname. rewrite Hname, Hallowed. simpl.
  destruct (Z.gtb_spec (stream_length f) MAX_FILE_SIZE) as [?|_]; [lia | done].
Qed.

Ltac size_check :=
  match goal with
  | |- context [?a >? ?b] => destruct (Z.gtb_spec a b); [done || lia | done || lia]
  end.

(** The two checks on the name stand before the one on the size. *)
Lemma rejected_by_name (o : operation_run) (f : FileStorage) (w : world) :
  uploaded_part o = Some f →
  (filename f = "" → run o w = (EmptyName, w)) ∧
  (filename f ≠ "" → allowed_file (filename f) (allowed_extensions o) = false →
   run o w = (UnsupportedFormat o, w)).
Proof.
  intros Hf. split.
  - intros Hname.
    destruct o as [req env|req env]; simpl in *;
      [unfold transcribe_audio | unfold upload_file]; by rewrite Hf, Hname.
  - intros Hname Hext. apply eqb_false_ne in Hname.
    destruct o as [req env|req env]; simpl in *;
      [unfold transcribe_audio | unfold upload_file]; by rewrite Hf, Hname, Hext.
Qed.

Lemma TooLarge_apart (o : operation_run) :
  TooLarge o ≠ EmptyName ∧ TooLarge o ≠ UnsupportedFormat o.
Proof.
  split; destruct o as [req env|req env]; intros [= H]; revert H; by vm_compute.
Qed.

(** C3 fails as stated: thirty mebibytes sent to the upload under the name
    of a program exceed the ceiling and are rejected as
    [UnsupportedFormat], by the check on the extension, which stands before
    the one on the size. *)
Lemma C3_counterexample :
  let o := Upload (Sample.upload_of Sample.installer) Sample.upload_ok in
  uploaded_part o = Some Sample.installer ∧
  stream_length Sample.installer > ceiling o ∧
  (run o Sample.empty_world).1 = UnsupportedFormat o ∧
  (run o Sample.empty_world).1 ≠ TooLarge o.
Proof. vm_compute. repeat split. discriminate. Qed.

(** C3, amended.  An upload longer than the ceiling of its operation
    (25 MiB for a transcription, 20 MiB for a file) is rejected with status
    400 and the world is left as it was: no staging file, no folder, no
    original.  The rejection is [TooLarge] exactly when the checks on the
    name have passed and the length is strictly above the ceiling, so a
    length at or below it passes this check.  A part whose name fails a
    check is rejected by that check, whatever its length: as [EmptyName]
    when the name is empty, as [UnsupportedFormat] when its extension is
    not allowed. *)
Theorem C3_oversize_rejected (o : operation_run) (f : FileStorage) (w : world) :
  uploaded_part o = Some f →
  (stream_length f > ceiling o → (run o w).2 = w ∧ status (run o w).1 = 400) ∧
  ((run o w).1 = TooLarge o ↔ name_checks_pass o f ∧ stream_length f > ceiling o) ∧
  (filename f = "" → run o w = (EmptyName, w)) ∧
  (filename f ≠ "" → allowed_file (filename f) (allowed_extensions o) = false →
   run o w = (UnsupportedFormat o, w)).
Proof.
  intros Hf.
  destruct (rejected_by_name o f w Hf) as [Hempty Hformat].
  destruct (TooLarge_apart o) as [Hne Hnf].
  split; [| split; [| by split]].
  - intros Hbig.
    destruct o as [req env|req env]; simpl in *;
      [unfold transcribe_audio | unfold upload_file]; rewrite Hf;
      (destruct (String.eqb (filename f) ""); [done |]);
      (destruct (allowed_file (filename f) _); [| done]); simpl;
      size_check.
  - split.
    + intros Hr.
      destruct (decide (filename f = "")) as [Hname|Hname].
      { rewrite (Hempty Hname) in Hr. by symmetry in Hr. }
      destruct (allowed_file (filename f) (allowed_extensions o)) eqn:Hallowed; cycle 1.
      { rewrite (Hformat Hname eq_refl) in Hr. by symmetry in Hr. }
      split; [done |].
      destruct (Z_gt_le_dec (stream_length f) (ceiling o)) as [|Hle]; [done |].
      exfalso. destruct o as [req env|req env]; simpl in *.
      * destruct (transcribe_audio_staged req env f w Hf Hname Hallowed Hle)
          as (e & _ & Hrun).
        rewrite Hrun in Hr.
        pose proof (transcribe_route_status f (default "fr" (form_language req))
                      (temp_path_of env (Py.lower e)) env w) as Hs.
        simpl in Hs. rewrite Hr in Hs. unfold TooLarge, status in Hs. simpl in Hs. lia.
      * rewrite (upload_file_admitted req env f w Hf Hname Hallowed Hle) in Hr.
        pose proof (upload_route_status f (stream_length f) req env w) as Hs.
        simpl in Hs. rewrite Hr in Hs. unfold TooLarge, status in Hs. simpl in Hs. lia.
    + intros [[Hname Hallowed] Hbig]. apply eqb_false_ne in Hname.
      destruct o as [req env|req env]; simpl in *;
        [unfold transcribe_audio | unfold upload_file];
        rewrite Hf, Hname, Hallowed; simpl; size_check.
Qed.

(** C3 at work: thirty mebibytes of audio are refused and nothing is written. *)
Lemma C3_oversize_rejected_witness :
  run (Transcribe (Sample.transcribe_of Sample.long_talk) Sample.transcribe_ok)
      Sample.empty_world
  = (TooLarge (Transcribe (Sample.transcribe_of Sample.long_talk) Sample.transcribe_ok),
     Sample.empty_world).
Proof.
  destruct (C3_oversize_rejected
              (Transcribe (Sample.transcribe_of Sample.long_talk) Sample.transcribe_ok)
              Sample.long_talk Sample.empty_world eq_refl) as (Hwrite & Hreason & _).
  assert (stream_length Sample.long_talk
          > ceiling (Transcribe (Sample.transcribe_of Sample.long_talk) Sample.transcribe_ok))
    as Hbig by (vm_compute; reflexivity).
  destruct (Hwrite Hbig) as [Hw _].
  apply injective_projections; [| exact Hw].
  apply Hreason. split; [| exact Hbig].
  split; [discriminate | vm_compute; reflexivity].
Defined.

(** ** C4: the check of the extension *)

Lemma join_occurs (sep e : string) (l : list string) :
  e ∈ l → occurs_in e (Py.join sep l).
Proof.
  induction l as [|x [|y rest] IH]; intros He.
  - by apply elem_of_nil in He.
  - apply list_elem_of_singleton in He as ->.
    exists "", "". simpl. by rewrite append_nil_r.
  - change (Py.join sep (x :: y :: rest)) with (x ++ sep ++ Py.join sep (y :: rest)).
    apply elem_of_cons in He as [->|He].
    + by exists "", (sep ++ Py.join sep (y :: rest)).
    + destruct (IH He) as (a & b & ->).
      exists (x ++ sep ++ a), b. by rewrite !append_assoc.
Qed.

Lemma not_allowed_file (name : string) (allowed : gset string) :
  Py.contains "." name = false
  ∨ (∃ e, Py.rsplit1_last "." name = Some e ∧ Py.lower e ∉ allowed) →
  allowed_file name allowed = false.
Proof.
  unfold allowed_file. intros [->|(e & -> & He)]; [done |].
  rewrite bool_decide_false by done. apply andb_false_r.
Qed.

(** C4 fails as stated: the empty file name has no dot, and a part sent
    with it is rejected as [EmptyName], by the check that stands before the
    one on the extension. *)
Lemma C4_counterexample :
  let o := Upload (Sample.upload_of Sample.unnamed) Sample.upload_ok in
  uploaded_part o = Some Sample.unnamed ∧
  Py.contains "." (filename Sample.unnamed) = false ∧
  (run o Sample.empty_world).1 = EmptyName ∧
  (run o Sample.empty_world).1 ≠ UnsupportedFormat o.
Proof. vm_compute. repeat split. discriminate. Qed.

(** C4, amended.  A part whose file name is not empty, and has no dot or
    an extension (the text after the last dot, in lower case) outside the
    set of its operation, is rejected as [UnsupportedFormat]; the world is
    left as it was (no folder, no file), and every extension of the set
    stands in the error text. *)
Theorem C4_unsupported_rejected (o : operation_run) (f : FileStorage) (w : world) :
  uploaded_part o = Some f →
  filename f ≠ "" →
  Py.contains "." (filename f) = false
  ∨ (∃ e, Py.rsplit1_last "." (filename f) = Some e
          ∧ Py.lower e ∉ allowed_extensions o) →
  extensions_order o ≡ₚ elements (allowed_extensions o) →
  run o w = (UnsupportedFormat o, w) ∧
  ∀ e, e ∈ allowed_extensions o →
    ∃ text, (UnsupportedFormat o).1 = JsonError text ∧ occurs_in e text.
Proof.
  intros Hf Hname Hext Horder. split.
  - apply not_allowed_file in Hext. apply eqb_false_ne in Hname.
    destruct o as [req env|req env]; simpl in *;
      [unfold transcribe_audio | unfold upload_file];
      by rewrite Hf, Hname, Hext.
  - intros e He. eexists. split; [reflexivity |].
    assert (e ∈ extensions_order o) as Hin.
    { rewrite Horder. by apply elem_of_elements. }
    destruct (join_occurs ", " e _ Hin) as (a & b & ->).
    exists (unsupported_header o ++ a), b. by rewrite append_assoc.
Qed.

(** C4 at work: a program is no attachment. *)
Lemma C4_unsupported_rejected_witness :
  let o := Upload (Sample.upload_of Sample.program) Sample.upload_ok in
  run o Sample.empty_world = (UnsupportedFormat o, Sample.empty_world) ∧
  ∀ e, e ∈ allowed_extensions o →
    ∃ text, (UnsupportedFormat o).1 = JsonError text ∧ occurs_in e text.
Proof.
  apply (C4_unsupported_rejected
           (Upload (Sample.upload_of Sample.program) Sample.upload_ok)
           Sample.program Sample.empty_world).
  - reflexivity.
  - discriminate.
  - right. exists "exe". split; [reflexivity |]. by vm_compute.
  - reflexivity.
Defined.

(** ** Removal *)

Lemma remove_if_present (p : string) (w : world) :
  (found ← os_path_exists p; if found : bool then os_remove p else mret tt) w
  = (inr tt, with_files (delete p) w).
Proof. exact (transcribe_finally_spec p w). Qed.

(** The loop stops at the first extension whose artifact is there, removes
    the artifact and the thumbnail of that extension, and raises nothing. *)
Lemma delete_loop_spec (order : list string) (cfg : option string) (file_id : string)
    (w : world) :
  delete_loop order (chat_folder cfg) (Py.os_path_join (chat_folder cfg) "thumbs") file_id w =
    match matching_extension file_id cfg order w with
    | Some ext => (inr true, without_artifact file_id cfg ext w)
    | None => (inr false, w)
    end.
Proof.
  unfold matching_extension. induction order as [|ext rest IH]; simpl; [done |].
  unfold mbind at 1, M_bind at 1, bind at 1. unfold os_path_exists at 1.
  fold (artifact_path cfg file_id ext).
  case_bool_decide as Hp; [| exact IH].
  destruct Hp as [data Hp].
  unfold mbind at 1, M_bind at 1, bind at 1. unfold os_remove at 1. rewrite Hp.
  unfold mbind at 1, M_bind at 1, bind at 1.
  fold (thumbnail_path cfg file_id ext).
  pose proof (remove_if_present (thumbnail_path cfg file_id ext)
                (with_files (delete (artifact_path cfg file_id ext)) w)) as Hthumb.
  unfold mbind, M_bind, bind in Hthumb. unfold mbind, M_bind, bind.
  destruct (os_path_exists (thumbnail_path cfg file_id ext) _) as [[e|b] w1]; [done |].
  by rewrite Hthumb.
Qed.

Lemma delete_file_spec (file_id : string) (cfg : option string) (order : list string)
    (w : world) :
  delete_file file_id cfg order w =
    match matching_extension file_id cfg order w with
    | Some ext => (Deleted, without_artifact file_id cfg ext w)
    | None => (NotFound, w)
    end.
Proof.
  unfold delete_file, route. unfold mbind, M_bind, bind.
  fold (chat_folder cfg). rewrite delete_loop_spec.
  by destruct (matching_extension file_id cfg order w).
Qed.

Lemma matching_extension_some (file_id : string) (cfg : option string)
    (order : list string) (w : world) (ext : string) :
  matching_extension file_id cfg order w = Some ext →
  ext ∈ order ∧ is_Some (files (fs w) !! artifact_path cfg file_id ext).
Proof.
  intros H. apply List.find_some in H as [Hin Hp].
  split; [by apply list_elem_of_In | by apply bool_decide_eq_true in Hp].
Qed.

Lemma matching_extension_none (file_id : string) (cfg : option string)
    (order : list string) (w : world) :
  matching_extension file_id cfg order w = None ↔
  ∀ ext, ext ∈ order → files (fs w) !! artifact_path cfg file_id ext = None.
Proof.
  unfold matching_extension. split.
  - intros H ext Hin. apply list_elem_of_In in Hin.
    pose proof (List.find_none _ _ H ext Hin) as Hp. simpl in Hp.
    apply bool_decide_eq_false in Hp. by apply eq_None_not_Some.
  - intros H. induction order as [|x rest IH]; simpl; [done |].
    rewrite bool_decide_false.
    + apply IH. intros ext Hin. apply H. by right.
    + rewrite (H x) by by left. by intros [? ?].
Qed.

Lemma known_extension_plain (e : string) :
  e ∈ all_allowed → plain_extension e ∧ e ≠ "".
Proof.
  unfold all_allowed, ALLOWED_IMAGE_EXTENSIONS, ALLOWED_DOCUMENT_EXTENSIONS.
  rewrite !elem_of_union, !elem_of_singleton.
  intros H. repeat destruct H as [H|H]; subst e; by repeat split.
Qed.

(** ** C5: upload, remove, remove again *)

Lemma find_only {A} (p : A → bool) (l : list A) (x : A) :
  In x l → p x = true → (∀ y, In y l → p y = true → y = x) →
  List.find p l = Some x.
Proof.
  induction l as [|y l IH]; simpl; [done |]. intros Hin Hx Hall.
  destruct (p y) eqn:Hy.
  - f_equal. apply Hall; [by left | done].
  - destruct Hin as [->|Hin]; [congruence |].
    apply IH; [done | done |]. intros z Hz. apply Hall. by right.
Qed.

(** A response that carries a [file] object comes from an upload that passed
    admission, made its folder and saved the original. *)
Lemma upload_file_success_inv (req : UploadRequest) (env : upload_env) (w w1 : world)
    (a : AttachmentJson) :
  upload_file req env w = ((JsonFile a, 200), w1) →
  ∃ f, files_file req = Some f ∧ filename f ≠ "" ∧
       allowed_file (filename f) all_allowed = true ∧
       stream_length f ≤ MAX_FILE_SIZE ∧
       chat_makedirs env = None ∧ upload_save env = Saved.
Proof.
  unfold upload_file. destruct (files_file req) as [f|]; [| done].
  destruct (String.eqb_spec (filename f) "") as [|Hname]; [done |].
  destruct (allowed_file (filename f) all_allowed) eqn:Hallowed; [| done]. simpl.
  destruct (Z.gtb_spec (stream_length f) MAX_FILE_SIZE) as [|Hsize]; [done |].
  intros H. exists f. repeat split; try done.
  - destruct (chat_makedirs env) as [e|] eqn:Hmk; [| done].
    destruct (upload_admitted_fault f (stream_length f) req env w) as (e' & w' & Hf);
      [left; by rewrite Hmk |].
    unfold route in H. by rewrite Hf in H.
  - destruct (upload_save env) as [|e part] eqn:Hsave; [done |].
    destruct (upload_admitted_fault f (stream_length f) req env w) as (e' & w' & Hf);
      [right; by rewrite Hsave |].
    unfold route in H. by rewrite Hf in H.
Qed.

Lemma get_file_type_image (name : string) :
  get_file_type name = "image" → extension_or_empty name ∈ ALLOWED_IMAGE_EXTENSIONS.
Proof.
  unfold get_file_type. simpl.
  repeat case_bool_decide; done.
Qed.

Lemma thumbnail_bytes_made (pil : pil_env) :
  thumbnail_made pil = true → is_Some (thumbnail_bytes pil).
Proof.
  unfold thumbnail_bytes. intros H. rewrite H. unfold thumbnail_made in H.
  destruct (Image_save_result pil); [by rewrite andb_false_r in H | by eexists].
Qed.

(** Removal answers by what is on storage. *)
Lemma delete_file_answer (file_id : string) (cfg : option string) (order : list string)
    (w : world) :
  order ≡ₚ elements all_allowed →
  ((delete_file file_id cfg order w).1 = Deleted ↔
     ∃ ext, ext ∈ all_allowed ∧ is_Some (files (fs w) !! artifact_path cfg file_id ext)) ∧
  ((delete_file file_id cfg order w).1 = NotFound ↔
     ∀ ext, ext ∈ all_allowed → files (fs w) !! artifact_path cfg file_id ext = None).
Proof.
  intros Horder. rewrite delete_file_spec.
  assert (∀ ext, ext ∈ order ↔ ext ∈ all_allowed) as Hin.
  { intros ext. by rewrite Horder, elem_of_elements. }
  destruct (matching_extension file_id cfg order w) as [ext|] eqn:Hm; simpl.
  - apply matching_extension_some in Hm as [Hext Hthere]. apply Hin in Hext.
    split; split; try done.
    + intros _. by exists ext.
    + intros Hnone. rewrite (Hnone ext Hext) in Hthere. by destruct Hthere.
  - pose proof (proj1 (matching_extension_none file_id cfg order w) Hm) as Hnone.
    split; split; try done.
    + intros (ext & Hext & Hthere). apply Hin in Hext.
      rewrite (Hnone ext Hext) in Hthere. by destruct Hthere.
    + intros _ ext Hext. apply Hnone. by apply Hin.
Qed.

(** When one extension only has an artifact for the identifier, removal
    takes that artifact and its thumbnail, and finds nothing the next time. *)
Lemma remove_only_artifact (file_id : string) (cfg : option string) (order : list string)
    (w : world) (ext : string) :
  order ≡ₚ elements all_allowed →
  ext ∈ all_allowed →
  is_Some (files (fs w) !! artifact_path cfg file_id ext) →
  (∀ e, e ∈ all_allowed → e ≠ ext → files (fs w) !! artifact_path cfg file_id e = None) →
  let r := delete_file file_id cfg order w in
  r = (Deleted, without_artifact file_id cfg ext w) ∧
  files (fs r.2) !! artifact_path cfg file_id ext = None ∧
  files (fs r.2) !! thumbnail_path cfg file_id ext = None ∧
  delete_file file_id cfg order r.2 = (NotFound, r.2).
Proof.
  intros Horder Hext Hthere Hothers.
  assert (∀ e, e ∈ order ↔ e ∈ all_allowed) as Hin.
  { intros e. by rewrite Horder, elem_of_elements. }
  assert (matching_extension file_id cfg order w = Some ext) as Hm.
  { apply find_only.
    - apply list_elem_of_In. by apply Hin.
    - by apply bool_decide_eq_true.
    - intros e He Hp. apply list_elem_of_In, Hin in He.
      apply bool_decide_eq_true in Hp.
      destruct (decide (e = ext)) as [|Hne]; [done |].
      rewrite (Hothers e He Hne) in Hp. by destruct Hp. }
  simpl. rewrite delete_file_spec, Hm. simpl.
  assert (files (fs (without_artifact file_id cfg ext w)) !! artifact_path cfg file_id ext
          = None) as Hgone.
  { simpl. apply lookup_delete_None. right. apply lookup_delete_eq. }
  split; [done |]. split; [done |]. split; [apply lookup_delete_eq |].
  rewrite delete_file_spec.
  assert (matching_extension file_id cfg order (without_artifact file_id cfg ext w) = None)
    as ->; [| done].
  apply matching_extension_none. intros e He. apply Hin in He.
  destruct (decide (e = ext)) as [->|Hne]; [done |].
  simpl. apply lookup_delete_None. right. apply lookup_delete_None. right.
  by apply Hothers.
Qed.

Ltac case_thumbnail data :=
  match goal with
  | |- context [from_option _ _ ?o _] => destruct o as [data|]; simpl
  end.

(** C5.  [delete_file] answers [Deleted] exactly when some known extension
    has an artifact for the identifier on storage, and [NotFound] exactly
    when none has.  After the upload of an image under an identifier that
    had no artifact before, the original is on storage (with its thumbnail,
    when the response names one); removing the identifier answers [Deleted]
    and leaves neither, and removing it once more answers [NotFound]. *)
Theorem C5_upload_then_remove (order : list string) :
  order ≡ₚ elements all_allowed →
  (∀ file_id cfg w,
     ((delete_file file_id cfg order w).1 = Deleted ↔
        ∃ ext, ext ∈ all_allowed
               ∧ is_Some (files (fs w) !! artifact_path cfg file_id ext)) ∧
     ((delete_file file_id cfg order w).1 = NotFound ↔
        ∀ ext, ext ∈ all_allowed → files (fs w) !! artifact_path cfg file_id ext = None)) ∧
  (∀ req env w a w1,
     upload_file req env w = ((JsonFile a, 200), w1) →
     type_ a = "image" →
     fresh_identifier (id_ a) (UPLOAD_FOLDER env) w →
     let cfg := UPLOAD_FOLDER env in
     ∃ ext, ext ∈ ALLOWED_IMAGE_EXTENSIONS ∧
       is_Some (files (fs w1) !! artifact_path cfg (id_ a) ext) ∧
       (is_Some (thumbnailURL a) →
        is_Some (files (fs w1) !! thumbnail_path cfg (id_ a) ext)) ∧
       let r := delete_file (id_ a) cfg order w1 in
       r.1 = Deleted ∧
       files (fs r.2) !! artifact_path cfg (id_ a) ext = None ∧
       files (fs r.2) !! thumbnail_path cfg (id_ a) ext = None ∧
       delete_file (id_ a) cfg order r.2 = (NotFound, r.2)).
Proof.
  intros Horder. split; [intros; by apply delete_file_answer |].
  intros req env w a w1 Hup Htype Hfresh. simpl.
  destruct (upload_file_success_inv req env w w1 a Hup)
    as (f & Hf & Hname & Hallowed & Hsize & Hmk & Hsave).
  rewrite (upload_file_admitted req env f w Hf Hname Hallowed Hsize) in Hup.
  destruct (upload_admitted_spec f (stream_length f) req env w Hmk Hsave)
    as (w' & cs & Hrun & Hfiles & _).
  unfold route in Hup. rewrite Hrun in Hup. injection Hup as <- <-.
  simpl in *.
  set (ext := extension_or_empty (werkzeug_secure_filename env (filename f))) in *.
  set (x := Py.prefix 12 (upload_uuid4_hex env)) in *.
  set (cfg := UPLOAD_FOLDER env) in *.
  assert (ext ∈ ALLOWED_IMAGE_EXTENSIONS) as Himg by by apply get_file_type_image.
  assert (ext ∈ all_allowed) as Hext by (apply elem_of_union; by left).
  pose proof (upload_artifact_not_thumbnail cfg x) as Hnt.
  assert (is_Some (files (fs w') !! artifact_path cfg ("file_" ++ x) ext)) as Hthere.
  { rewrite Hfiles.
    case_thumbnail data.
    - rewrite lookup_insert_ne by (apply not_eq_sym, Hnt, upload_id_relative).
      rewrite lookup_insert_eq. by eexists.
    - rewrite lookup_insert_eq. by eexists. }
  assert (∀ e, e ∈ all_allowed → e ≠ ext →
            files (fs w') !! artifact_path cfg ("file_" ++ x) e = None) as Hothers.
  { intros e He Hne. rewrite Hfiles.
    assert (<[artifact_path cfg ("file_" ++ x) ext := stream f]> (files (fs w))
              !! artifact_path cfg ("file_" ++ x) e = None) as Hbase.
    { rewrite lookup_insert_ne; [by apply Hfresh |].
      intros E. apply artifact_path_same_id in E; [done | apply upload_id_relative]. }
    case_thumbnail data; [| exact Hbase].
    rewrite lookup_insert_ne; [exact Hbase |].
    apply not_eq_sym, Hnt, upload_id_relative. }
  exists ext. split; [done |]. split; [done |]. split.
  - rewrite Hfiles, Htype. simpl. intros Hurl.
    destruct (thumbnail_made (pil env)) eqn:Hmade; [| by destruct Hurl].
    destruct (thumbnail_bytes_made _ Hmade) as [data ->]. simpl.
    rewrite lookup_insert_eq. by eexists.
  - destruct (remove_only_artifact ("file_" ++ x) cfg order w' ext
                Horder Hext Hthere Hothers) as (Hr & Ha & Ht & Hagain).
    rewrite Hr in *. done.
Qed.

(** C5 at work: a photo is uploaded to an empty storage, removed, and
    removed again. *)
Lemma C5_upload_then_remove_witness :
  let up := upload_file (Sample.upload_of Sample.photo) Sample.upload_ok Sample.empty_world in
  let removed :=
    delete_file "file_abcdef123456" (Some "uploads") (elements all_allowed) up.2 in
  removed.1 = Deleted ∧
  files (fs removed.2) !! "uploads/chat/file_abcdef123456.jpg" = None ∧
  (delete_file "file_abcdef123456" (Some "uploads") (elements all_allowed) removed.2).1
    = NotFound.
Proof.
  destruct (C5_upload_then_remove (elements all_allowed) (reflexivity _)) as [_ Hround].
  pose (up := upload_file (Sample.upload_of Sample.photo) Sample.upload_ok Sample.empty_world).
  pose (a := {| id_ := "file_abcdef123456";
                type_ := "image";
                fileName := "photo.jpg";
                fileURL := "http://localhost:5000/uploads/chat/file_abcdef123456.jpg";
                thumbnailURL :=
                  Some "http://localhost:5000/uploads/chat/thumbs/file_abcdef123456_thumb.jpg";
                fileSize := 51200;
                mimeType := "image/jpeg";
                extractedText := None |}).
  destruct (Hround (Sample.upload_of Sample.photo) Sample.upload_ok Sample.empty_world
              a up.2) as (ext & Hext & _ & _ & Hdeleted & Hgone & _ & Hagain).
  - apply injective_projections; [vm_compute; reflexivity | reflexivity].
  - reflexivity.
  - intros ext _. apply lookup_empty.
  - split; [exact Hdeleted |]. split; [by vm_compute |].
    exact (f_equal fst Hagain).
Defined.

(** ** C6: a failed thumbnail does not fail the upload *)

Lemma thumbnail_not_made (pil : pil_env) :
  PIL_installed pil = false
  ∨ (∃ e, thumbs_makedirs pil = Some e
          ∨ Image_open_result pil = inl e
          ∨ (∃ img, Image_open_result pil = inr img ∧ mode img ∈ ["RGBA"; "P"]
                    ∧ Image_convert_fault pil = Some e)
          ∨ Image_thumbnail_fault pil = Some e
          ∨ Image_save_result pil = inl e) →
  thumbnail_made pil = false.
Proof.
  unfold thumbnail_made.
  intros [->|(e & [->| [->| [(img & -> & Hmode & ->)| [->| ->]]]])]; simpl;
    rewrite ?andb_false_r; try done.
  rewrite (bool_decide_true (mode img ∈ _)) by done. simpl.
  by rewrite andb_false_r.
Qed.

(** C6.  When the thumbnail of an uploaded image cannot be derived, Pillow
    being absent or a step of the derivation raising (making the folder,
    opening, converting, resizing or saving the image), the upload still
    answers with status 200 and the full record, in which [thumbnailURL] is
    null, and the original stays on storage. *)
Theorem C6_thumbnail_failure_not_fatal (req : UploadRequest) (env : upload_env)
    (f : FileStorage) (w : world) :
  let cfg := UPLOAD_FOLDER env in
  let original_filename := werkzeug_secure_filename env (filename f) in
  let ext := extension_or_empty original_filename in
  let file_id := "file_" ++ Py.prefix 12 (upload_uuid4_hex env) in
  files_file req = Some f →
  filename f ≠ "" →
  allowed_file (filename f) all_allowed = true →
  stream_length f ≤ MAX_FILE_SIZE →
  chat_makedirs env = None →
  upload_save env = Saved →
  get_file_type original_filename = "image" →
  PIL_installed (pil env) = false
  ∨ (∃ e, thumbs_makedirs (pil env) = Some e
          ∨ Image_open_result (pil env) = inl e
          ∨ (∃ img, Image_open_result (pil env) = inr img ∧ mode img ∈ ["RGBA"; "P"]
                    ∧ Image_convert_fault (pil env) = Some e)
          ∨ Image_thumbnail_fault (pil env) = Some e
          ∨ Image_save_result (pil env) = inl e) →
  ∃ a w1,
    upload_file req env w = ((JsonFile a, 200), w1) ∧
    success (upload_file req env w).1 = true ∧
    thumbnailURL a = None ∧
    id_ a = file_id ∧
    type_ a = "image" ∧
    fileName a = original_filename ∧
    fileURL a = Py.rstrip_char "/" (host_url req) ++ "/uploads/chat/" ++ file_id ++ "." ++ ext ∧
    fileSize a = stream_length f ∧
    mimeType a = default "application/octet-stream" (mime_types !! ext) ∧
    files (fs w1) !! artifact_path cfg file_id ext = Some (stream f).
Proof.
  intros cfg original_filename ext file_id Hf Hname Hallowed Hsize Hmk Hsave Htype Hfail.
  apply thumbnail_not_made in Hfail.
  rewrite (upload_file_admitted req env f w Hf Hname Hallowed Hsize).
  destruct (upload_admitted_spec f (stream_length f) req env w Hmk Hsave)
    as (w1 & cs & Hrun & Hfiles & _).
  rewrite Hfail, andb_false_r in Hrun, Hfiles. simpl in Hfiles.
  unfold route. rewrite Hrun.
  eexists _, w1. split; [reflexivity |]. simpl.
  repeat (split; [done |]).
  rewrite Hfiles. apply lookup_insert_eq.
Qed.

(** C6 at work: a photo uploaded where Pillow is not installed. *)
Lemma C6_thumbnail_failure_not_fatal_witness :
  ∃ a w1,
    upload_file (Sample.upload_of Sample.photo)
      (Sample.with_pil Sample.pil_missing Sample.upload_ok) Sample.empty_world
      = ((JsonFile a, 200), w1) ∧
    success (upload_file (Sample.upload_of Sample.photo)
               (Sample.with_pil Sample.pil_missing Sample.upload_ok)
               Sample.empty_world).1 = true ∧
    thumbnailURL a = None ∧
    id_ a = "file_abcdef123456" ∧
    type_ a = "image" ∧
    fileName a = "photo.jpg" ∧
    fileURL a = "http://localhost:5000/uploads/chat/file_abcdef123456.jpg" ∧
    fileSize a = 51200 ∧
    mimeType a = "image/jpeg" ∧
    files (fs w1) !! "uploads/chat/file_abcdef123456.jpg" = Some "JFIF".
Proof.
  apply (C6_thumbnail_failure_not_fatal (Sample.upload_of Sample.photo)
           (Sample.with_pil Sample.pil_missing Sample.upload_ok)
           Sample.photo Sample.empty_world).
  - reflexivity.
  - discriminate.
  - vm_compute. reflexivity.
  - vm_compute. discriminate.
  - reflexivity.
  - reflexivity.
  - vm_compute. reflexivity.
  - left. reflexivity.
Defined.

(** ** C7: how a thumbnail is derived *)

(** C7 fails as stated: a greyscale image (mode [L]) is not in mode [RGB],
    and it is resized and saved with no conversion. *)
Lemma C7_counterexample :
  Image_open_result Sample.pil_greyscale = inr {| mode := "L" |} ∧
  "L" ≠ "RGB" ∧
  calls (create_thumbnail "uploads/chat/file_abcdef123456.png" "uploads/chat"
           "file_abcdef123456" "png" Sample.pil_greyscale Sample.empty_world).2
  = [ Image_open "uploads/chat/file_abcdef123456.png";
      Image_thumbnail (200, 200) "LANCZOS";
      Image_save "uploads/chat/thumbs/file_abcdef123456_thumb.png" 85 true ].
Proof. split; [reflexivity |]. split; [discriminate |]. vm_compute. reflexivity. Qed.

(** C7, amended.  A thumbnail that is made is made so: [create_thumbnail]
    opens the image, converts it to [RGB] when its mode is [RGBA] or [P] and
    only then, asks for a thumbnail within 200 by 200 (Pillow's [thumbnail],
    which keeps the aspect ratio), and saves it with quality 85 and
    [optimize] on: these calls, in this order. *)
Theorem C7_thumbnail_policy (image_path upload_folder file_id ext : string)
    (pil : pil_env) (img : Image) (w : world) :
  thumbnail_made pil = true →
  Image_open_result pil = inr img →
  let thumb_path :=
    Py.os_path_join (Py.os_path_join upload_folder "thumbs") (file_id ++ "_thumb." ++ ext) in
  calls (create_thumbnail image_path upload_folder file_id ext pil w).2 =
    (calls w
     ++ [Image_open image_path]
     ++ (if bool_decide (mode img = "RGBA" ∨ mode img = "P")
         then [Image_convert "RGB"] else [])
     ++ [Image_thumbnail (200, 200) "LANCZOS"; Image_save thumb_path 85 true])%list.
Proof.
  intros Hmade Hopen. unfold thumbnail_made in Hmade. rewrite Hopen in Hmade.
  unfold create_thumbnail. run. rewrite Hopen.
  destruct (PIL_installed pil); [| done].
  destruct (thumbs_makedirs pil); [done |].
  destruct (Image_thumbnail_fault pil); [by rewrite andb_false_r in Hmade |].
  destruct (Image_save_result pil) as [e|data]; [by rewrite andb_false_r in Hmade |].
  simpl in *.
  assert (bool_decide (mode img ∈ ["RGBA"; "P"])
          = bool_decide (mode img = "RGBA" ∨ mode img = "P")) as Hmode.
  { apply bool_decide_ext. rewrite !elem_of_cons, elem_of_nil. tauto. }
  rewrite Hmode in *.
  destruct (bool_decide (mode img = "RGBA" ∨ mode img = "P")); simpl.
  - destruct (Image_convert_fault pil); [done |]. simpl. by rewrite <- ?app_assoc.
  - by rewrite <- ?app_assoc.
Qed.

(** C7 at work: an image with an alpha channel. *)
Lemma C7_thumbnail_policy_witness :
  calls (create_thumbnail "uploads/chat/file_abcdef123456.png" "uploads/chat"
           "file_abcdef123456" "png" Sample.pil_ok Sample.empty_world).2
  = [ Image_open "uploads/chat/file_abcdef123456.png";
      Image_convert "RGB";
      Image_thumbnail (200, 200) "LANCZOS";
      Image_save "uploads/chat/thumbs/file_abcdef123456_thumb.png" 85 true ].
Proof.
  apply (C7_thumbnail_policy "uploads/chat/file_abcdef123456.png" "uploads/chat"
           "file_abcdef123456" "png" Sample.pil_ok {| mode := "RGBA" |}
           Sample.empty_world); reflexivity.
Defined.

(** ** C8: the text of a PDF *)

Lemma prefix_length (n : nat) (s : string) : (String.length (Py.prefix n s) ≤ n)%nat.
Proof.
  unfold Py.prefix. revert s. induction n as [|n IH]; intros [|c s]; simpl; try lia.
  specialize (IH s). lia.
Qed.

Lemma join_pages_raises (pages : list (exn + string)) (text : string) (e : exn) :
  inl e ∈ pages → ∃ e', join_pages pages text = inl e'.
Proof.
  revert text. induction pages as [|[e'|t] rest IH]; intros text Hin.
  - by apply elem_of_nil in Hin.
  - by exists e'.
  - apply elem_of_cons in Hin as [|Hin]; [done |]. by apply IH.
Qed.

Lemma pdf_text_none (pdf : pdf_env) :
  PyPDF2_installed pdf = false
  ∨ (∃ e, PdfReader_result pdf = inl e)
  ∨ (∃ pages e, PdfReader_result pdf = inr pages ∧ inl e ∈ take 10 pages) →
  pdf_text pdf = None.
Proof.
  unfold pdf_text. intros [->| [[e ->]| (pages & e & -> & Hin)]]; [done | |].
  - by destruct (PyPDF2_installed pdf).
  - destruct (join_pages_raises _ "" e Hin) as [e' ->].
    by destruct (PyPDF2_installed pdf).
Qed.

(** The text of the sample PDF stops with its tenth page. *)
Example pdf_text_twelve_pages :
  pdf_text Sample.twelve_pages
  = Some (Py.join newline ["1"; "2"; "3"; "4"; "5"; "6"; "7"; "8"; "9"; "10"]).
Proof. vm_compute. reflexivity. Qed.

(** C8.  For an upload stored with extension [pdf], the response carries as
    [extractedText] the first 5000 characters of the text extracted, which is
    the text of the first ten pages at most: at most ten pages are asked for
    their text, none beyond the tenth.  When PyPDF2 is absent, the reader or
    one of those pages raises, or the text is empty, the upload succeeds all
    the same and the field is left out. *)
Theorem C8_pdf_text_capped (req : UploadRequest) (env : upload_env)
    (f : FileStorage) (w : world) :
  files_file req = Some f →
  filename f ≠ "" →
  allowed_file (filename f) all_allowed = true →
  stream_length f ≤ MAX_FILE_SIZE →
  chat_makedirs env = None →
  upload_save env = Saved →
  extension_or_empty (werkzeug_secure_filename env (filename f)) = "pdf" →
  ∃ a w1 cs,
    upload_file req env w = ((JsonFile a, 200), w1) ∧
    extractedText a = response_text (pdf_text (pypdf2 env)) ∧
    (∀ t, extractedText a = Some t → (String.length t ≤ 5000)%nat) ∧
    (∀ text, pdf_text (pypdf2 env) = Some text → text ≠ "" →
       extractedText a = Some (Py.prefix 5000 text)) ∧
    (PyPDF2_installed (pypdf2 env) = false
     ∨ (∃ e, PdfReader_result (pypdf2 env) = inl e)
     ∨ (∃ pages e, PdfReader_result (pypdf2 env) = inr pages ∧ inl e ∈ take 10 pages) →
     extractedText a = None) ∧
    calls w1 = (calls w ++ cs)%list ∧
    (page_reads cs ≤ 10)%nat ∧
    pages_within 10 cs.
Proof.
  intros Hf Hname Hallowed Hsize Hmk Hsave Hpdf.
  rewrite (upload_file_admitted req env f w Hf Hname Hallowed Hsize).
  destruct (upload_admitted_spec f (stream_length f) req env w Hmk Hsave)
    as (w1 & cs & Hrun & _ & Hcalls & Hreads & Hwithin & _).
  rewrite Hpdf in Hrun. simpl in Hrun.
  unfold route. rewrite Hrun.
  eexists _, w1, cs. split; [reflexivity |]. simpl.
  split; [done |]. split; [| split; [| split]]; try done.
  - unfold response_text. intros t.
    destruct (pdf_text (pypdf2 env)) as [text|]; [| done].
    destruct (Py.truthy text); [| done].
    intros [= <-]. apply prefix_length.
  - intros text -> Hne. unfold response_text. by destruct text.
  - intros Hnone. by rewrite (pdf_text_none _ Hnone).
Qed.

(** C8 at work: a report of twelve pages. *)
Lemma C8_pdf_text_capped_witness :
  ∃ a w1 cs,
    upload_file (Sample.upload_of Sample.report)
      (Sample.with_pypdf2 Sample.twelve_pages Sample.upload_ok) Sample.empty_world
      = ((JsonFile a, 200), w1) ∧
    extractedText a = response_text (pdf_text Sample.twelve_pages) ∧
    (∀ t, extractedText a = Some t → (String.length t ≤ 5000)%nat) ∧
    (∀ text, pdf_text Sample.twelve_pages = Some text → text ≠ "" →
       extractedText a = Some (Py.prefix 5000 text)) ∧
    (PyPDF2_installed Sample.twelve_pages = false
     ∨ (∃ e, PdfReader_result Sample.twelve_pages = inl e)
     ∨ (∃ pages e, PdfReader_result Sample.twelve_pages = inr pages
                   ∧ inl e ∈ take 10 pages) →
     extractedText a = None) ∧
    calls w1 = ([] ++ cs)%list ∧
    (page_reads cs ≤ 10)%nat ∧
    pages_within 10 cs.
Proof.
  apply (C8_pdf_text_capped (Sample.upload_of Sample.report)
           (Sample.with_pypdf2 Sample.twelve_pages Sample.upload_ok)
           Sample.report Sample.empty_world).
  - reflexivity.
  - discriminate.
  - vm_compute. reflexivity.
  - vm_compute. discriminate.
  - reflexivity.
  - reflexivity.
  - vm_compute. reflexivity.
Defined.

(** ** C9: a name that loses its extension *)

Lemma extension_of_dotless (name : string) :
  Py.contains "." name = false →
  extension_or_empty name = "" ∧ get_file_type name = "unknown".
Proof.
  intros Hdot. unfold get_file_type, extension_or_empty. rewrite Hdot.
  split; [done | by vm_compute].
Qed.

(** C9.  The name [.jpg] passes the check of the extension and werkzeug's
    [secure_filename] turns it into [jpg], a name with no dot.  For every
    accepted name that is sanitized into a name with no dot, the upload
    succeeds with type [unknown] and the generic MIME type, the original is
    stored under the identifier followed by a dot, and removing the
    identifier (which had no artifact before) answers [NotFound] and leaves
    the original where it is. *)
Theorem C9_extension_lost :
  (allowed_file ".jpg" all_allowed = true ∧
   secure_filename ".jpg" = "jpg" ∧
   Py.contains "." (secure_filename ".jpg") = false) ∧
  ∀ (req : UploadRequest) (env : upload_env) (f : FileStorage) (order : list string)
    (w : world),
    let cfg := UPLOAD_FOLDER env in
    let file_id := "file_" ++ Py.prefix 12 (upload_uuid4_hex env) in
    let original_filename := werkzeug_secure_filename env (filename f) in
    files_file req = Some f →
    filename f ≠ "" →
    allowed_file (filename f) all_allowed = true →
    stream_length f ≤ MAX_FILE_SIZE →
    Py.contains "." original_filename = false →
    chat_makedirs env = None →
    upload_save env = Saved →
    order ≡ₚ elements all_allowed →
    fresh_identifier file_id cfg w →
    ∃ a w1,
      upload_file req env w = ((JsonFile a, 200), w1) ∧
      id_ a = file_id ∧
      fileName a = original_filename ∧
      type_ a = "unknown" ∧
      mimeType a = "application/octet-stream" ∧
      files (fs w1) !! (chat_folder cfg ++ "/" ++ file_id ++ ".") = Some (stream f) ∧
      delete_file file_id cfg order w1 = (NotFound, w1).
Proof.
  split; [by vm_compute |].
  intros req env f order w cfg file_id original_filename
    Hf Hname Hallowed Hsize Hdot Hmk Hsave Horder Hfresh.
  destruct (extension_of_dotless original_filename Hdot) as [Hext Htype].
  rewrite (upload_file_admitted req env f w Hf Hname Hallowed Hsize).
  destruct (upload_admitted_spec f (stream_length f) req env w Hmk Hsave)
    as (w1 & cs & Hrun & Hfiles & _).
  fold original_filename in Hrun, Hfiles. rewrite Hext, Htype in Hrun, Hfiles.
  simpl in Hfiles. fold cfg file_id in Hfiles.
  unfold route. rewrite Hrun.
  eexists _, w1. split; [reflexivity |]. simpl.
  repeat (split; [done |]).
  assert (artifact_path cfg file_id "" = chat_folder cfg ++ "/" ++ file_id ++ ".") as Hpath.
  { by rewrite artifact_path_eq by apply upload_id_relative. }
  split.
  - rewrite Hfiles, <- Hpath. apply lookup_insert_eq.
  - rewrite delete_file_spec.
    assert (matching_extension file_id cfg order w1 = None) as ->; [| done].
    apply matching_extension_none. intros e He.
    rewrite Horder in He. apply elem_of_elements in He.
    rewrite Hfiles, lookup_insert_ne; [by apply Hfresh |].
    intros E. apply artifact_path_same_id in E; [| apply upload_id_relative].
    by destruct (known_extension_plain e He) as [_ Hnonempty].
Qed.

(** C9 at work: [.jpg] is uploaded to an empty storage. *)
Lemma C9_extension_lost_witness :
  ∃ a w1,
    upload_file (Sample.upload_of Sample.dot_jpg) Sample.upload_ok Sample.empty_world
      = ((JsonFile a, 200), w1) ∧
    id_ a = "file_abcdef123456" ∧
    fileName a = "jpg" ∧
    type_ a = "unknown" ∧
    mimeType a = "application/octet-stream" ∧
    files (fs w1) !! "uploads/chat/file_abcdef123456." = Some "JFIF" ∧
    delete_file "file_abcdef123456" (Some "uploads") (elements all_allowed) w1
      = (NotFound, w1).
Proof.
  apply (proj2 C9_extension_lost (Sample.upload_of Sample.dot_jpg) Sample.upload_ok
           Sample.dot_jpg (elements all_allowed) Sample.empty_world).
  - reflexivity.
  - discriminate.
  - vm_compute. reflexivity.
  - vm_compute. discriminate.
  - vm_compute. reflexivity.
  - reflexivity.
  - reflexivity.
  - reflexivity.
  - intros ext _. apply lookup_empty.
Defined.

(** ** C10: what [delete_file] leaves alone *)

(** C10.  [delete_file] leaves the world as it was, or removes, for one
    extension [ext] of the known set, the artifact [file_id.ext] and the
    thumbnail [file_id_thumb.ext]: every other path keeps its contents and
    no directory changes.  In particular the artifact and the thumbnail of
    another identifier stay (identifiers are segments of a URL path, and
    extensions hold no dot and no separator). *)
Theorem C10_remove_frame (file_id : string) (cfg : option string) (order : list string)
    (w : world) :
  order ≡ₚ elements all_allowed →
  let w' := (delete_file file_id cfg order w).2 in
  (w' = w ∨ ∃ ext, ext ∈ all_allowed ∧ w' = without_artifact file_id cfg ext w) ∧
  dirs (fs w') = dirs (fs w) ∧
  (∃ ext, ext ∈ all_allowed ∧
     ∀ p, p ≠ artifact_path cfg file_id ext → p ≠ thumbnail_path cfg file_id ext →
       files (fs w') !! p = files (fs w) !! p) ∧
  (∀ id' ext',
     slash_free file_id → slash_free id' → id' ≠ file_id → plain_extension ext' →
     files (fs w') !! artifact_path cfg id' ext' = files (fs w) !! artifact_path cfg id' ext' ∧
     files (fs w') !! thumbnail_path cfg id' ext' = files (fs w) !! thumbnail_path cfg id' ext').
Proof.
  intros Horder. simpl. rewrite delete_file_spec.
  destruct (matching_extension file_id cfg order w) as [ext|] eqn:Hm; simpl.
  - apply matching_extension_some in Hm as [Hin _].
    rewrite Horder in Hin. apply elem_of_elements in Hin.
    destruct (known_extension_plain ext Hin) as [[Hdot Hslash] _].
    split; [right; by exists ext |]. split; [done |]. split.
    + exists ext. split; [done |]. intros p Ha Ht.
      by rewrite lookup_delete_ne, lookup_delete_ne.
    + intros id' ext' Hid Hid' Hne [Hdot' Hslash'].
      assert (artifact_path cfg file_id ext ≠ artifact_path cfg id' ext') as Haa.
      { intros E. by apply artifact_path_inj in E as [-> _]. }
      assert (thumbnail_path cfg file_id ext ≠ thumbnail_path cfg id' ext') as Htt.
      { intros E. by apply thumbnail_path_inj in E as [-> _]. }
      assert (thumbnail_path cfg file_id ext ≠ artifact_path cfg id' ext') as Hta.
      { intros E. symmetry in E. revert E.
        apply artifact_not_thumbnail; [done | by apply slash_free_relative | done]. }
      assert (artifact_path cfg file_id ext ≠ thumbnail_path cfg id' ext') as Hat.
      { apply artifact_not_thumbnail; [done | by apply slash_free_relative | done]. }
      by rewrite !lookup_delete_ne.
  - split; [by left |]. split; [done |]. split; [| done].
    exists "jpg". split; [| done].
    unfold all_allowed, ALLOWED_IMAGE_EXTENSIONS. set_solver.
Qed.

(** C10 at work: removing the PDF leaves the photo of the other identifier. *)
Lemma C10_remove_frame_witness :
  let w' := (delete_file "file_abcdef123456" (Some "uploads") (elements all_allowed)
               Sample.two_attachments).2 in
  files (fs w') !! "uploads/chat/file_abcdef123456.pdf" = None ∧
  files (fs w') !! "uploads/chat/file_000000000000.jpg" = Some "JFIF".
Proof.
  destruct (C10_remove_frame "file_abcdef123456" (Some "uploads") (elements all_allowed)
              Sample.two_attachments (reflexivity _)) as (_ & _ & _ & Hother).
  destruct (Hother "file_000000000000" "jpg") as [Hphoto _];
    [reflexivity | reflexivity | discriminate | by split |].
  split; [by vm_compute | exact Hphoto].
Defined.

(** * Further properties of the handlers *)

(** ** The OpenAI client (lines 38-46) *)

(** X1.  Once [get_openai_client] has returned a client, the module global
    holds it and every later call returns that same client and changes
    nothing, whatever the environment holds by then. *)
Theorem get_openai_client_cached (key key' : option string) (w w' : world) (c : OpenAI) :
  get_openai_client key w = (inr c, w') →
  _openai_client w' = Some c ∧
  fs w' = fs w ∧ logged w' = logged w ∧ calls w' = calls w ∧
  get_openai_client key' w' = (inr c, w').
Proof.
  unfold get_openai_client.
  destruct (_openai_client w) as [c0|] eqn:Hc.
  - intros [= <- <-]. by rewrite Hc.
  - destruct key as [k|]; [| done].
    destruct (Py.truthy k); simpl; [| done].
    intros [= <- <-]. done.
Qed.

Lemma get_openai_client_cached_witness :
  let w' := with_client {| api_key := "sk-test" |} Sample.empty_world in
  _openai_client w' = Some {| api_key := "sk-test" |} ∧
  fs w' = fs Sample.empty_world ∧ logged w' = logged Sample.empty_world ∧
  calls w' = calls Sample.empty_world ∧
  get_openai_client None w' = (inr {| api_key := "sk-test" |}, w').
Proof.
  apply (get_openai_client_cached (Some "sk-test") None Sample.empty_world).
  reflexivity.
Defined.

(** X2.  [get_openai_client] raises exactly when no client is held and the
    key is absent from the environment or empty; what it raises is the
    [ValueError] of line 44, and the world is left as it was (the failure is
    not remembered). *)
Theorem get_openai_client_raises (key : option string) (w : world) :
  let missing := _openai_client w = None ∧ (key = None ∨ key = Some "") in
  (missing → get_openai_client key w = (inl (Exn ValueError missing_key_message), w)) ∧
  (¬ missing → ∃ c w', get_openai_client key w = (inr c, w')).
Proof.
  simpl. unfold get_openai_client. split.
  - intros [-> [->| ->]]; done.
  - intros Hnot. destruct (_openai_client w) as [c|]; [by eexists _, _ |].
    destruct key as [[|ch k]|]; simpl.
    + destruct Hnot. split; [done | by right].
    + by eexists _, _.
    + destruct Hnot. split; [done | by left].
Qed.

Lemma get_openai_client_raises_witness :
  get_openai_client (Some "") Sample.empty_world
  = (inl (Exn ValueError missing_key_message), Sample.empty_world).
Proof.
  apply (proj1 (get_openai_client_raises (Some "") Sample.empty_world)).
  split; [reflexivity | by right].
Defined.

(** ** File names (lines 49-65) *)

Section file_name_facts.
#[local] Arguments String.append !_ _ / : simpl nomatch.

Lemma lower_char_idem (c : ascii) : Py.lower_char (Py.lower_char c) = Py.lower_char c.
Proof. by destruct c as [[] [] [] [] [] [] [] []]. Qed.

Lemma lower_char_eqb_dot (c : ascii) : Ascii.eqb (Py.lower_char c) "." = Ascii.eqb c ".".
Proof. by destruct c as [[] [] [] [] [] [] [] []]. Qed.

Lemma lower_idem (s : string) : Py.lower (Py.lower s) = Py.lower s.
Proof.
  induction s as [|c s IH]; simpl; [done |]. by rewrite lower_char_idem, IH.
Qed.

Lemma contains_dot_lower (s : string) : Py.contains "." (Py.lower s) = Py.contains "." s.
Proof.
  induction s as [|c s IH]; simpl; [done |]. by rewrite lower_char_eqb_dot, IH.
Qed.

Lemma rsplit1_lower (s : string) :
  Py.rsplit1 "." (Py.lower s) = (λ p, (Py.lower p.1, Py.lower p.2)) <$> Py.rsplit1 "." s.
Proof.
  induction s as [|c s IH]; simpl; [done |]. rewrite IH, lower_char_eqb_dot.
  destruct (Py.rsplit1 "." s) as [[h t]|]; simpl; [done |].
  by destruct (Ascii.eqb c ".").
Qed.

(** The extension of a name in lower case is the extension of the name. *)
Lemma extension_lower (s : string) :
  Py.lower <$> Py.rsplit1_last "." (Py.lower s) = Py.lower <$> Py.rsplit1_last "." s.
Proof.
  unfold Py.rsplit1_last. rewrite rsplit1_lower.
  destruct (Py.rsplit1 "." s) as [[h t]|]; simpl; [| done].
  by rewrite lower_idem.
Qed.

Lemma contains_dotted (h e : string) : Py.contains "." (h ++ "." ++ e) = true.
Proof. rewrite contains_append. simpl. apply orb_true_r. Qed.

Lemma rsplit1_last_dotted (h e : string) :
  Py.contains "." e = false → Py.rsplit1_last "." (h ++ "." ++ e) = Some e.
Proof.
  intros He. unfold Py.rsplit1_last.
  change (h ++ "." ++ e) with (h ++ String "." e).
  by rewrite rsplit1_append.
Qed.

End file_name_facts.

(** X3.  [allowed_file] looks at the text after the last dot only, in
    lower case: a name [h.e] whose [e] holds no dot is allowed exactly when
    the lower case of [e] is in the set, whatever [h] is (dots included). *)
Theorem allowed_file_last_extension (h e : string) (allowed : gset string) :
  Py.contains "." e = false →
  allowed_file (h ++ "." ++ e) allowed = bool_decide (Py.lower e ∈ allowed).
Proof.
  intros He. unfold allowed_file.
  by rewrite contains_dotted, rsplit1_last_dotted.
Qed.

(** A double extension is judged by its last part. *)
Lemma allowed_file_last_extension_witness :
  allowed_file ("photo.jpg" ++ "." ++ "EXE") all_allowed
  = bool_decide (Py.lower "EXE" ∈ all_allowed).
Proof. apply allowed_file_last_extension. reflexivity. Defined.

(** X4.  On names of ASCII characters the two functions on file names do
    not see the case of letters: such a name and its lower case are allowed
    by the same sets and have the same type.  (Beyond ASCII [str.lower]
    depends on the neighbours of a letter, and the statement is not made.) *)
Theorem file_name_case_insensitive (name : string) (allowed : gset string) :
  Py.isascii name = true →
  allowed_file (Py.lower name) allowed = allowed_file name allowed ∧
  get_file_type (Py.lower name) = get_file_type name.
Proof.
  intros _.
  assert (extension_or_empty (Py.lower name) = extension_or_empty name) as Hext.
  { unfold extension_or_empty. by rewrite contains_dot_lower, extension_lower. }
  split.
  - unfold allowed_file. rewrite contains_dot_lower.
    pose proof (extension_lower name) as H.
    destruct (Py.rsplit1_last "." (Py.lower name)) as [e1|],
             (Py.rsplit1_last "." name) as [e2|]; simpl in H; try done.
    by injection H as ->.
  - unfold get_file_type. by rewrite Hext.
Qed.

(** X4 at work: a photo named in capitals. *)
Lemma file_name_case_insensitive_witness :
  allowed_file "photo.jpg" ALLOWED_IMAGE_EXTENSIONS
    = allowed_file "PHOTO.JPG" ALLOWED_IMAGE_EXTENSIONS ∧
  get_file_type "photo.jpg" = get_file_type "PHOTO.JPG".
Proof.
  apply (file_name_case_insensitive "PHOTO.JPG" ALLOWED_IMAGE_EXTENSIONS).
  reflexivity.
Defined.

Lemma allowed_file_extension (name : string) (allowed : gset string) :
  "" ∉ allowed →
  allowed_file name allowed = bool_decide (extension_or_empty name ∈ allowed).
Proof.
  intros Hempty. unfold allowed_file, extension_or_empty, Py.rsplit1_last.
  destruct (Py.contains "." name) eqn:Hdot; simpl.
  - destruct (Py.rsplit1 "." name) as [[h t]|] eqn:Hsplit; [done |].
    apply rsplit1_none in Hsplit. congruence.
  - by rewrite bool_decide_false.
Qed.

Lemma extension_sets_apart :
  (ALLOWED_AUDIO_EXTENSIONS ## ALLOWED_IMAGE_EXTENSIONS) ∧
  (ALLOWED_AUDIO_EXTENSIONS ## ALLOWED_DOCUMENT_EXTENSIONS) ∧
  (ALLOWED_IMAGE_EXTENSIONS ## ALLOWED_DOCUMENT_EXTENSIONS) ∧
  ("" ∉ ALLOWED_AUDIO_EXTENSIONS) ∧ ("" ∉ ALLOWED_IMAGE_EXTENSIONS) ∧
  ("" ∉ ALLOWED_DOCUMENT_EXTENSIONS).
Proof.
  repeat split; try by vm_compute.
  all: apply (bool_decide_unpack _); by vm_compute.
Qed.

(** The type of a name, read off its extension. *)
Lemma get_file_type_extension (name : string) :
  (get_file_type name = "image" ↔ extension_or_empty name ∈ ALLOWED_IMAGE_EXTENSIONS) ∧
  (get_file_type name = "document" ↔
     extension_or_empty name ∈ ALLOWED_DOCUMENT_EXTENSIONS).
Proof.
  destruct extension_sets_apart as (Hai & Had & Hid & _).
  unfold get_file_type. simpl.
  set (ext := extension_or_empty name).
  destruct (decide (ext ∈ ALLOWED_AUDIO_EXTENSIONS)) as [Ea|Ea];
    destruct (decide (ext ∈ ALLOWED_IMAGE_EXTENSIONS)) as [Ei|Ei];
    destruct (decide (ext ∈ ALLOWED_DOCUMENT_EXTENSIONS)) as [Ed|Ed];
    try (by destruct (Hai ext)); try (by destruct (Had ext)); try (by destruct (Hid ext));
    rewrite ?(bool_decide_true _ Ea), ?(bool_decide_false _ Ea),
            ?(bool_decide_true _ Ei), ?(bool_decide_false _ Ei),
            ?(bool_decide_true _ Ed), ?(bool_decide_false _ Ed);
    repeat split; intros; try done; by intuition.
Qed.

(** X5.  [get_file_type] and [allowed_file] agree: a name has type [audio],
    [image] or [document] exactly when [allowed_file] accepts it for the set
    of that name, and type [unknown] exactly when it accepts it for none. *)
Theorem get_file_type_allowed_file (name : string) :
  (get_file_type name = "audio" ↔ allowed_file name ALLOWED_AUDIO_EXTENSIONS = true) ∧
  (get_file_type name = "image" ↔ allowed_file name ALLOWED_IMAGE_EXTENSIONS = true) ∧
  (get_file_type name = "document" ↔
     allowed_file name ALLOWED_DOCUMENT_EXTENSIONS = true) ∧
  (get_file_type name = "unknown" ↔
     allowed_file name ALLOWED_AUDIO_EXTENSIONS = false ∧
     allowed_file name ALLOWED_IMAGE_EXTENSIONS = false ∧
     allowed_file name ALLOWED_DOCUMENT_EXTENSIONS = false).
Proof.
  destruct extension_sets_apart as (Hai & Had & Hid & Ha & Hi & Hd).
  rewrite !allowed_file_extension by done.
  unfold get_file_type. simpl.
  set (ext := extension_or_empty name).
  destruct (decide (ext ∈ ALLOWED_AUDIO_EXTENSIONS)) as [Ea|Ea];
    destruct (decide (ext ∈ ALLOWED_IMAGE_EXTENSIONS)) as [Ei|Ei];
    destruct (decide (ext ∈ ALLOWED_DOCUMENT_EXTENSIONS)) as [Ed|Ed];
    try (by destruct (Hai ext)); try (by destruct (Had ext)); try (by destruct (Hid ext));
    rewrite ?(bool_decide_true _ Ea), ?(bool_decide_false _ Ea),
            ?(bool_decide_true _ Ei), ?(bool_decide_false _ Ei),
            ?(bool_decide_true _ Ed), ?(bool_decide_false _ Ed);
    repeat split; intros; try done; by intuition.
Qed.

(** X6.  No part is admitted by both operations: a part whose name passes
    the checks of one is rejected as [UnsupportedFormat] by the other, which
    changes nothing. *)
Theorem operations_admit_apart (f : FileStorage) (o o' : operation_run) (w : world) :
  uploaded_part o = Some f →
  uploaded_part o' = Some f →
  allowed_extensions o ≠ allowed_extensions o' →
  name_checks_pass o f →
  run o' w = (UnsupportedFormat o', w).
Proof.
  destruct extension_sets_apart as (Hai & Had & Hid & Ha & Hi & Hd).
  intros Hf Hf' Hsets [Hname Hallowed].
  assert ("" ∉ all_allowed) as Hall.
  { unfold all_allowed. by rewrite not_elem_of_union. }
  assert (allowed_file (filename f) (allowed_extensions o') = false) as Hnot.
  { destruct o as [req env|req env], o' as [req' env'|req' env']; simpl in *; try done;
      rewrite allowed_file_extension in Hallowed |- * by done;
      apply bool_decide_eq_true in Hallowed; apply bool_decide_eq_false;
      unfold all_allowed in *.
    - rewrite not_elem_of_union. split; intros Hin; [by apply (Hai _ Hallowed) |].
      by apply (Had _ Hallowed).
    - intros Hin. apply elem_of_union in Hallowed as [Himg|Hdoc];
        [by apply (Hai _ Hin) | by apply (Had _ Hin)]. }
  apply eqb_false_ne in Hname.
  destruct o' as [req' env'|req' env']; simpl in *;
    [unfold transcribe_audio | unfold upload_file];
    by rewrite Hf', Hname, Hnot.
Qed.

(** X6 at work: the memo is no attachment. *)
Lemma operations_admit_apart_witness :
  let o' := Upload (Sample.upload_of Sample.memo) Sample.upload_ok in
  run o' Sample.empty_world = (UnsupportedFormat o', Sample.empty_world).
Proof.
  apply (operations_admit_apart Sample.memo
           (Transcribe Sample.transcribe_memo Sample.transcribe_ok)
           (Upload (Sample.upload_of Sample.memo) Sample.upload_ok)).
  - reflexivity.
  - reflexivity.
  - simpl. intros H. assert ("m4a" ∈ all_allowed) as Hin by (rewrite <- H; by vm_compute).
    revert Hin. by vm_compute.
  - split; [discriminate | by vm_compute].
Defined.

(** ** Answers and their statuses *)

(** What an admitted transcription answers: a transcript with status 200, or
    an error with status 500. *)
Lemma transcribe_route_shape (f : FileStorage) (lang p : string) (env : transcribe_env)
    (w : world) :
  let r := (route (transcribe_staged f lang p env) transcribe_except w).1 in
  (status r = 200 ∧ success r = true) ∨ (status r = 500 ∧ success r = false).
Proof.
  simpl. unfold route, transcribe_staged, try_finally.
  assert (∀ r w1, transcribe_try f lang p env w = (inr r, w1) →
            status r = 200 ∧ success r = true) as H.
  { unfold transcribe_try, get_openai_client. run. intros r w1.
    destruct (audio_save env) as [|e [part|]]; simpl; [| done..].
    destruct (_openai_client w) as [c|]; simpl.
    - rewrite lookup_insert_eq. simpl.
      destruct (whisper env); simpl; [done | by intros [= <- _]].
    - destruct (OPENAI_API_KEY env) as [key|]; simpl; [| done].
      destruct (Py.truthy key); simpl; [| done].
      rewrite lookup_insert_eq. simpl.
      destruct (whisper env); simpl; [done | by intros [= <- _]]. }
  destruct (transcribe_try f lang p env w) as [[e|r] w1].
  - rewrite transcribe_finally_spec. right. unfold transcribe_except.
    by destruct (exn_class_of e).
  - rewrite transcribe_finally_spec. left. by eapply H.
Qed.

Lemma upload_route_shape (f : FileStorage) (size : Z) (req : UploadRequest)
    (env : upload_env) (w : world) :
  let r := (route (upload_admitted f size req env) upload_except w).1 in
  (status r = 200 ∧ success r = true) ∨ (status r = 500 ∧ success r = false).
Proof.
  simpl. unfold route.
  destruct (chat_makedirs env) as [e|] eqn:Hmk.
  { destruct (upload_admitted_fault f size req env w) as (e' & w' & ->);
      [left; by rewrite Hmk | by right]. }
  destruct (upload_save env) as [|e part] eqn:Hsave.
  - destruct (upload_admitted_spec f size req env w Hmk Hsave) as (w' & cs & -> & _).
    by left.
  - destruct (upload_admitted_fault f size req env w) as (e' & w' & ->);
      [right; by rewrite Hsave | by right].
Qed.

Lemma rejected_shape (msg : string) (h : exn → world → response * world) (w : world) :
  let r := route (mret (JsonError msg, 400)) h w in
  (status r.1 = 200 ∨ status r.1 = 400 ∨ status r.1 = 500) ∧
  (success r.1 = true ↔ status r.1 = 200) ∧
  (status r.1 = 400 → r.2 = w).
Proof. simpl. repeat split; auto; done. Qed.

(** X7.  Both uploading handlers answer with status 200, 400 or 500; the
    body reports success exactly with status 200; and an answer with status
    400 means that nothing was done: no file, no folder, no log entry, no
    call to a capability, no client made. *)
Theorem rejection_changes_nothing (o : operation_run) (w : world) :
  let r := run o w in
  (status r.1 = 200 ∨ status r.1 = 400 ∨ status r.1 = 500) ∧
  (success r.1 = true ↔ status r.1 = 200) ∧
  (status r.1 = 400 → r.2 = w).
Proof.
  simpl.
  assert (∀ r : response,
            (status r = 200 ∧ success r = true) ∨ (status r = 500 ∧ success r = false) →
            (status r = 200 ∨ status r = 400 ∨ status r = 500) ∧
            (success r = true ↔ status r = 200) ∧ status r ≠ 400) as Hshape.
  { intros r [[-> ->]|[-> ->]]; repeat split; try done; auto. }
  destruct o as [req env|req env]; simpl.
  - unfold transcribe_audio.
    destruct (files_audio req) as [f|] eqn:Hf; [| apply rejected_shape].
    destruct (String.eqb_spec (filename f) "") as [|Hname]; [apply rejected_shape |].
    destruct (allowed_file (filename f) ALLOWED_AUDIO_EXTENSIONS) eqn:Hallowed;
      [| apply rejected_shape]. simpl.
    destruct (Z.gtb_spec (stream_length f) MAX_AUDIO_SIZE) as [|Hsize]; [apply rejected_shape |].
    destruct (transcribe_audio_staged req env f w Hf Hname Hallowed Hsize)
      as (e & _ & Hrun).
    unfold transcribe_audio in Hrun.
    rewrite Hf, (proj2 (eqb_false_ne _ _) Hname), Hallowed in Hrun. simpl in Hrun.
    destruct (Z.gtb_spec (stream_length f) MAX_AUDIO_SIZE) as [|_]; [lia |].
    rewrite Hrun.
    destruct (Hshape _ (transcribe_route_shape f (default "fr" (form_language req))
                          (temp_path_of env (Py.lower e)) env w)) as (H1 & H2 & H3).
    done.
  - unfold upload_file.
    destruct (files_file req) as [f|] eqn:Hf; [| apply rejected_shape].
    destruct (String.eqb_spec (filename f) "") as [|Hname]; [apply rejected_shape |].
    destruct (allowed_file (filename f) all_allowed) eqn:Hallowed; [| apply rejected_shape]. simpl.
    destruct (Z.gtb_spec (stream_length f) MAX_FILE_SIZE) as [|Hsize]; [apply rejected_shape |].
    destruct (Hshape _ (upload_route_shape f (stream_length f) req env w))
      as (H1 & H2 & H3).
    done.
Qed.

(** ** Transcription: the service and the client *)

(** Whether the body of the [try] gets as far as the service call. *)
Lemma transcribe_try_effects (f : FileStorage) (lang p : string) (env : transcribe_env)
    (w : world) :
  let w1 := (transcribe_try f lang p env w).2 in
  let reached :=
    match audio_save env with
    | Saved => negb (credential_missing env w)
    | SaveFailed _ _ => false
    end in
  logged w1 = logged w ∧
  calls w1 = (calls w ++ if reached
                         then [Whisper_create "whisper-1" p lang "verbose_json"]
                         else [])%list ∧
  (if reached then is_Some (_openai_client w1)
   else _openai_client w1 = _openai_client w).
Proof.
  unfold credential_missing, transcribe_try, get_openai_client. run.
  destruct (audio_save env) as [|e [part|]]; simpl;
    [| by rewrite app_nil_r | by rewrite app_nil_r].
  destruct (_openai_client w) as [c|] eqn:Hc; simpl.
  - rewrite lookup_insert_eq. simpl.
    destruct (whisper env); frame; rewrite Hc; by eauto.
  - destruct (OPENAI_API_KEY env) as [key|]; simpl; [| by rewrite app_nil_r].
    destruct (Py.truthy key); simpl; [| by rewrite app_nil_r].
    rewrite lookup_insert_eq. simpl. destruct (whisper env); frame; by eauto.
Qed.

(** The [finally] and [except] clauses keep the client and the calls. *)
Lemma transcribe_route_keeps (f : FileStorage) (lang p : string) (env : transcribe_env)
    (w : world) :
  let w1 := (transcribe_try f lang p env w).2 in
  let w' := (route (transcribe_staged f lang p env) transcribe_except w).2 in
  _openai_client w' = _openai_client w1 ∧ calls w' = calls w1.
Proof.
  simpl. unfold route, transcribe_staged, try_finally.
  destruct (transcribe_try f lang p env w) as [[e|r] w1];
    rewrite transcribe_finally_spec; simpl; [| done].
  unfold transcribe_except. by destruct (exn_class_of e).
Qed.

Lemma transcribe_try_success (f : FileStorage) (lang p : string) (env : transcribe_env)
    (w : world) (t : Transcript) :
  audio_save env = Saved →
  credential_missing env w = false →
  whisper env = inr t →
  (transcribe_try f lang p env w).1 = inr (JsonTranscript (text t) (duration t) lang, 200).
Proof.
  unfold credential_missing, transcribe_try, get_openai_client. run.
  intros -> Hcred ->. simpl.
  destruct (_openai_client w) as [c|]; simpl.
  - by rewrite lookup_insert_eq.
  - destruct (OPENAI_API_KEY env) as [key|]; simpl; [| done].
    destruct (Py.truthy key); simpl; [| done].
    by rewrite lookup_insert_eq.
Qed.

(** X8.  A transcription that passes admission, stages its file, finds a
    credential and gets an answer from the service returns that answer's text
    and duration with status 200 and echoes the language, ['fr'] when the
    form gives none.  The service was called once, with model [whisper-1],
    the verbose format, that language, and a staging file whose name takes
    from the client's file name nothing but an extension of the audio set.
    Nothing is logged and the client is held afterwards. *)
Theorem transcribe_audio_success (req : TranscribeRequest) (env : transcribe_env)
    (f : FileStorage) (w : world) (t : Transcript) :
  files_audio req = Some f →
  filename f ≠ "" →
  allowed_file (filename f) ALLOWED_AUDIO_EXTENSIONS = true →
  stream_length f ≤ MAX_AUDIO_SIZE →
  audio_save env = Saved →
  credential_missing env w = false →
  whisper env = inr t →
  ∃ ext, ext ∈ ALLOWED_AUDIO_EXTENSIONS ∧
    let language := default "fr" (form_language req) in
    let r := transcribe_audio req env w in
    r.1 = (JsonTranscript (text t) (duration t) language, 200) ∧
    calls r.2 = (calls w ++ [Whisper_create "whisper-1" (temp_path_of env ext) language
                               "verbose_json"])%list ∧
    logged r.2 = logged w ∧
    is_Some (_openai_client r.2).
Proof.
  intros Hf Hname Hallowed Hsize Hsave Hcred Hwhisper.
  destruct (transcribe_audio_staged req env f w Hf Hname Hallowed Hsize) as (e & He & ->).
  exists (Py.lower e). split.
  { unfold allowed_file in Hallowed. rewrite He in Hallowed.
    apply andb_true_iff in Hallowed as [_ Hin]. by apply bool_decide_eq_true in Hin. }
  simpl.
  set (lang := default "fr" (form_language req)).
  set (p := temp_path_of env (Py.lower e)).
  destruct (transcribe_route_keeps f lang p env w) as [Hclient Hcalls].
  destruct (transcribe_try_effects f lang p env w) as (Hlog & Hc & Hcl).
  pose proof (transcribe_try_success f lang p env w t Hsave Hcred Hwhisper) as Hr.
  rewrite Hsave, Hcred in Hc, Hcl. simpl in Hc, Hcl.
  rewrite Hclient, Hcalls, Hc. split; [| split; [done | split; [| done]]].
  - unfold route, transcribe_staged, try_finally.
    destruct (transcribe_try f lang p env w) as [r w1]. simpl in Hr. subst r.
    by rewrite transcribe_finally_spec.
  - unfold route, transcribe_staged, try_finally.
    destruct (transcribe_try f lang p env w) as [r w1]. simpl in *. subst r.
    by rewrite transcribe_finally_spec.
Qed.

(** X8 at work: the memo is transcribed. *)
Lemma transcribe_audio_success_witness :
  ∃ ext, ext ∈ ALLOWED_AUDIO_EXTENSIONS ∧
    let r := transcribe_audio Sample.transcribe_memo Sample.transcribe_ok
               Sample.empty_world in
    r.1 = (JsonTranscript "bonjour" (Some "5.2") "en", 200) ∧
    calls r.2 = ([] ++ [Whisper_create "whisper-1"
                          (temp_path_of Sample.transcribe_ok ext) "en" "verbose_json"])%list ∧
    logged r.2 = [] ∧
    is_Some (_openai_client r.2).
Proof.
  apply (transcribe_audio_success Sample.transcribe_memo Sample.transcribe_ok
           Sample.memo Sample.empty_world {| text := "bonjour"; duration := Some "5.2" |}).
  - reflexivity.
  - discriminate.
  - vm_compute. reflexivity.
  - vm_compute. discriminate.
  - reflexivity.
  - reflexivity.
  - reflexivity.
Defined.

(** X9.  The service is never called for a transcription whose staging file
    could not be written or for which no credential is at hand: the list of
    calls is as it was. *)
Theorem transcribe_no_call_without_credential (req : TranscribeRequest)
    (env : transcribe_env) (f : FileStorage) (w : world) :
  files_audio req = Some f →
  filename f ≠ "" →
  allowed_file (filename f) ALLOWED_AUDIO_EXTENSIONS = true →
  stream_length f ≤ MAX_AUDIO_SIZE →
  audio_save env ≠ Saved ∨ credential_missing env w = true →
  calls (transcribe_audio req env w).2 = calls w.
Proof.
  intros Hf Hname Hallowed Hsize Hearly.
  destruct (transcribe_audio_staged req env f w Hf Hname Hallowed Hsize) as (e & He & ->).
  set (lang := default "fr" (form_language req)).
  set (p := temp_path_of env (Py.lower e)).
  destruct (transcribe_route_keeps f lang p env w) as [_ ->].
  destruct (transcribe_try_effects f lang p env w) as (_ & -> & _).
  destruct Hearly as [Hsave| ->].
  - destruct (audio_save env); [done | by rewrite app_nil_r].
  - destruct (audio_save env); simpl; by rewrite app_nil_r.
Qed.

Lemma transcribe_no_call_without_credential_witness :
  calls (transcribe_audio Sample.transcribe_memo Sample.transcribe_no_key
           Sample.empty_world).2 = [].
Proof.
  apply (transcribe_no_call_without_credential Sample.transcribe_memo
           Sample.transcribe_no_key Sample.memo Sample.empty_world).
  - reflexivity.
  - discriminate.
  - vm_compute. reflexivity.
  - vm_compute. discriminate.
  - right. reflexivity.
Defined.

(** X10.  The client outlives the request: after a staged transcription that
    found a credential, no later request meets the configuration fault,
    whatever its environment holds (also when the service raised).  After
    one that found none, no client is held, so that a key set later is read. *)
Theorem transcribe_client_kept (req : TranscribeRequest) (env : transcribe_env)
    (f : FileStorage) (w : world) :
  files_audio req = Some f →
  filename f ≠ "" →
  allowed_file (filename f) ALLOWED_AUDIO_EXTENSIONS = true →
  stream_length f ≤ MAX_AUDIO_SIZE →
  audio_save env = Saved →
  let w' := (transcribe_audio req env w).2 in
  (credential_missing env w = false → ∀ env', credential_missing env' w' = false) ∧
  (credential_missing env w = true → _openai_client w' = None).
Proof.
  intros Hf Hname Hallowed Hsize Hsave.
  destruct (transcribe_audio_staged req env f w Hf Hname Hallowed Hsize) as (e & He & ->).
  simpl.
  set (lang := default "fr" (form_language req)).
  set (p := temp_path_of env (Py.lower e)).
  destruct (transcribe_route_keeps f lang p env w) as [Hclient _].
  destruct (transcribe_try_effects f lang p env w) as (_ & _ & Hcl).
  rewrite Hsave in Hcl. split.
  - intros Hcred env'. rewrite Hcred in Hcl. simpl in Hcl.
    unfold credential_missing at 1. rewrite Hclient.
    by destruct Hcl as [c ->].
  - intros Hcred. rewrite Hcred in Hcl. simpl in Hcl.
    rewrite Hclient, Hcl. unfold credential_missing in Hcred.
    by destruct (_openai_client w).
Qed.

(** X10 at work: a first request with the key, a second one without. *)
Lemma transcribe_client_kept_witness :
  let w' := (transcribe_audio Sample.transcribe_memo Sample.transcribe_bad_audio
               Sample.empty_world).2 in
  credential_missing Sample.transcribe_no_key w' = false.
Proof.
  destruct (transcribe_client_kept Sample.transcribe_memo Sample.transcribe_bad_audio
              Sample.memo Sample.empty_world) as [Hkept _].
  - reflexivity.
  - discriminate.
  - vm_compute. reflexivity.
  - vm_compute. discriminate.
  - reflexivity.
  - apply Hkept. reflexivity.
Defined.

(** ** Upload: faults and what is stored *)

(** X11.  An admitted upload that cannot make its folder or cannot save the
    original answers with status 500 and the message of the exception after
    ['Erreur lors de l'upload: '], logs one error and calls no capability.
    The folder failing, the files are as they were; the save failing, what
    the failed write left at the destination stays there: [upload_file] has
    no clean-up. *)
Theorem upload_file_fault (req : UploadRequest) (env : upload_env) (f : FileStorage)
    (w : world) (e : exn) :
  let cfg := UPLOAD_FOLDER env in
  let ext := extension_or_empty (werkzeug_secure_filename env (filename f)) in
  let file_id := "file_" ++ Py.prefix 12 (upload_uuid4_hex env) in
  files_file req = Some f →
  filename f ≠ "" →
  allowed_file (filename f) all_allowed = true →
  stream_length f ≤ MAX_FILE_SIZE →
  chat_makedirs env = Some e
  ∨ (chat_makedirs env = None ∧ ∃ part, upload_save env = SaveFailed e part) →
  let r := upload_file req env w in
  r.1 = (JsonError ("Erreur lors de l'upload: " ++ exn_str e), 500) ∧
  logged r.2 = (logged w ++ [(ERROR, "Erreur upload: " +:+ exn_str e)])%list ∧
  calls r.2 = calls w ∧
  files (fs r.2) =
    match chat_makedirs env, upload_save env with
    | None, SaveFailed _ (Some part) =>
        <[artifact_path cfg file_id ext := part]> (files (fs w))
    | _, _ => files (fs w)
    end.
Proof.
  intros cfg ext file_id Hf Hname Hallowed Hsize Hfault. simpl.
  rewrite (upload_file_admitted req env f w Hf Hname Hallowed Hsize).
  unfold route, upload_admitted.
  unfold mbind at 1, M_bind at 1, bind at 1. unfold os_makedirs at 1.
  destruct Hfault as [-> |[-> [part ->]]]; [done |].
  unfold mbind at 1, M_bind at 1, bind at 1. unfold FileStorage_save at 1.
  by destruct part.
Qed.

(** X11 at work: the disk is full while the photo is saved. *)
Lemma upload_file_fault_witness :
  let env :=
    {| UPLOAD_FOLDER := Some "uploads";
       upload_uuid4_hex := "abcdef1234567890abcdef1234567890";
       upload_extensions_order := elements all_allowed;
       werkzeug_secure_filename := secure_filename;
       chat_makedirs := None;
       upload_save :=
         SaveFailed (Exn OtherException "[Errno 28] No space left on device") (Some "JF");
       pil := Sample.pil_ok;
       pypdf2 := Sample.pypdf2_ok |} in
  let r := upload_file (Sample.upload_of Sample.photo) env Sample.empty_world in
  r.1 = (JsonError "Erreur lors de l'upload: [Errno 28] No space left on device", 500) ∧
  logged r.2 = [(ERROR, "Erreur upload: [Errno 28] No space left on device")] ∧
  calls r.2 = [] ∧
  files (fs r.2) = <[ "uploads/chat/file_abcdef123456.jpg" := "JF" ]> ∅.
Proof.
  intros env.
  apply (upload_file_fault (Sample.upload_of Sample.photo) env Sample.photo
           Sample.empty_world (Exn OtherException "[Errno 28] No space left on device")).
  - reflexivity.
  - discriminate.
  - vm_compute. reflexivity.
  - vm_compute. discriminate.
  - right. split; [reflexivity |]. by exists (Some "JF").
Defined.

(** X12.  After a successful upload the bytes received are on storage at
    the artifact path of the identifier and extension the response names,
    and the response gives their length as measured.  No path but that one
    and the thumbnail path of the same identifier and extension has changed,
    and the thumbnail path has not changed either when the response names
    no thumbnail. *)
Theorem upload_file_stores (req : UploadRequest) (env : upload_env) (w w1 : world)
    (a : AttachmentJson) :
  upload_file req env w = ((JsonFile a, 200), w1) →
  let cfg := UPLOAD_FOLDER env in
  let ext := extension_or_empty (fileName a) in
  ∃ f, files_file req = Some f ∧
    fileSize a = stream_length f ∧
    files (fs w1) !! artifact_path cfg (id_ a) ext = Some (stream f) ∧
    (∀ p, p ≠ artifact_path cfg (id_ a) ext → p ≠ thumbnail_path cfg (id_ a) ext →
       files (fs w1) !! p = files (fs w) !! p) ∧
    (thumbnailURL a = None →
     files (fs w1) !! thumbnail_path cfg (id_ a) ext
       = files (fs w) !! thumbnail_path cfg (id_ a) ext).
Proof.
  intros Hup. simpl.
  destruct (upload_file_success_inv req env w w1 a Hup)
    as (f & Hf & Hname & Hallowed & Hsize & Hmk & Hsave).
  rewrite (upload_file_admitted req env f w Hf Hname Hallowed Hsize) in Hup.
  destruct (upload_admitted_spec f (stream_length f) req env w Hmk Hsave)
    as (w' & cs & Hrun & Hfiles & _).
  unfold route in Hup. rewrite Hrun in Hup. injection Hup as <- <-.
  simpl in *.
  set (ext := extension_or_empty (werkzeug_secure_filename env (filename f))) in *.
  set (x := Py.prefix 12 (upload_uuid4_hex env)) in *.
  set (cfg := UPLOAD_FOLDER env) in *.
  assert (thumbnail_path cfg ("file_" ++ x) ext ≠ artifact_path cfg ("file_" ++ x) ext)
    as Hapart.
  { apply not_eq_sym, upload_artifact_not_thumbnail, upload_id_relative. }
  exists f. split; [done |]. split; [done |]. rewrite Hfiles.
  split; [| split].
  - case_thumbnail data; [rewrite lookup_insert_ne by done |]; apply lookup_insert_eq.
  - intros p Ha Ht.
    case_thumbnail data; [rewrite lookup_insert_ne by done |]; by rewrite lookup_insert_ne.
  - intros Hurl.
    destruct (String.eqb _ "image" && thumbnail_made (pil env)); [done |]. simpl.
    by rewrite lookup_insert_ne.
Qed.

(** X12 at work: the photo on an empty storage. *)
Lemma upload_file_stores_witness :
  let up := upload_file (Sample.upload_of Sample.photo) Sample.upload_ok Sample.empty_world in
  files (fs up.2) !! "uploads/chat/file_abcdef123456.jpg" = Some "JFIF" ∧
  files (fs up.2) !! "uploads/chat/file_000000000000.jpg" = None.
Proof.
  intros up.
  pose (a := {| id_ := "file_abcdef123456";
                type_ := "image";
                fileName := "photo.jpg";
                fileURL := "http://localhost:5000/uploads/chat/file_abcdef123456.jpg";
                thumbnailURL :=
                  Some "http://localhost:5000/uploads/chat/thumbs/file_abcdef123456_thumb.jpg";
                fileSize := 51200;
                mimeType := "image/jpeg";
                extractedText := None |}).
  destruct (upload_file_stores (Sample.upload_of Sample.photo) Sample.upload_ok
              Sample.empty_world up.2 a) as (f & Hf & _ & Hstored & Hframe & _).
  - apply injective_projections; [vm_compute; reflexivity | reflexivity].
  - injection Hf as <-. split; [exact Hstored |].
    rewrite (Hframe "uploads/chat/file_000000000000.jpg"); [apply lookup_empty | |];
      by vm_compute.
Defined.

(** ** Documents *)

(** The round trip of an upload whose stored extension is a known one. *)
Lemma upload_known_then_remove (order : list string) (req : UploadRequest)
    (env : upload_env) (w w1 : world) (a : AttachmentJson) :
  order ≡ₚ elements all_allowed →
  upload_file req env w = ((JsonFile a, 200), w1) →
  extension_or_empty (fileName a) ∈ all_allowed →
  fresh_identifier (id_ a) (UPLOAD_FOLDER env) w →
  let cfg := UPLOAD_FOLDER env in
  let ext := extension_or_empty (fileName a) in
  let r := delete_file (id_ a) cfg order w1 in
  r.1 = Deleted ∧
  files (fs r.2) !! artifact_path cfg (id_ a) ext = None ∧
  files (fs r.2) !! thumbnail_path cfg (id_ a) ext = None ∧
  delete_file (id_ a) cfg order r.2 = (NotFound, r.2).
Proof.
  intros Horder Hup Hext Hfresh. simpl.
  destruct (upload_file_success_inv req env w w1 a Hup)
    as (f & Hf & Hname & Hallowed & Hsize & Hmk & Hsave).
  rewrite (upload_file_admitted req env f w Hf Hname Hallowed Hsize) in Hup.
  destruct (upload_admitted_spec f (stream_length f) req env w Hmk Hsave)
    as (w' & cs & Hrun & Hfiles & _).
  unfold route in Hup. rewrite Hrun in Hup. injection Hup as <- <-.
  simpl in *.
  set (ext := extension_or_empty (werkzeug_secure_filename env (filename f))) in *.
  set (x := Py.prefix 12 (upload_uuid4_hex env)) in *.
  set (cfg := UPLOAD_FOLDER env) in *.
  pose proof (upload_artifact_not_thumbnail cfg x) as Hnt.
  assert (is_Some (files (fs w') !! artifact_path cfg ("file_" ++ x) ext)) as Hthere.
  { rewrite Hfiles. case_thumbnail data.
    - rewrite lookup_insert_ne by (apply not_eq_sym, Hnt, upload_id_relative).
      rewrite lookup_insert_eq. by eexists.
    - rewrite lookup_insert_eq. by eexists. }
  assert (∀ e, e ∈ all_allowed → e ≠ ext →
            files (fs w') !! artifact_path cfg ("file_" ++ x) e = None) as Hothers.
  { intros e He Hne. rewrite Hfiles.
    assert (<[artifact_path cfg ("file_" ++ x) ext := stream f]> (files (fs w))
              !! artifact_path cfg ("file_" ++ x) e = None) as Hbase.
    { rewrite lookup_insert_ne; [by apply Hfresh |].
      intros E. apply artifact_path_same_id in E; [done | apply upload_id_relative]. }
    case_thumbnail data; [| exact Hbase].
    rewrite lookup_insert_ne; [exact Hbase |].
    apply not_eq_sym, Hnt, upload_id_relative. }
  destruct (remove_only_artifact ("file_" ++ x) cfg order w' ext
              Horder Hext Hthere Hothers) as (Hr & Ha & Ht & Hagain).
  rewrite Hr in *. done.
Qed.

Lemma get_file_type_document (name : string) :
  get_file_type name = "document" →
  extension_or_empty name ∈ ALLOWED_DOCUMENT_EXTENSIONS.
Proof.
  unfold get_file_type. simpl.
  repeat case_bool_decide; done.
Qed.

(** X13.  The round trip holds for documents as for images: after the
    upload of a document under an identifier that had no artifact before,
    the response names no thumbnail, removing the identifier answers
    [Deleted] and leaves no artifact, and removing it once more answers
    [NotFound]. *)
Theorem document_upload_then_remove (order : list string) (req : UploadRequest)
    (env : upload_env) (w w1 : world) (a : AttachmentJson) :
  order ≡ₚ elements all_allowed →
  upload_file req env w = ((JsonFile a, 200), w1) →
  type_ a = "document" →
  fresh_identifier (id_ a) (UPLOAD_FOLDER env) w →
  let cfg := UPLOAD_FOLDER env in
  let ext := extension_or_empty (fileName a) in
  ext ∈ ALLOWED_DOCUMENT_EXTENSIONS ∧
  thumbnailURL a = None ∧
  let r := delete_file (id_ a) cfg order w1 in
  r.1 = Deleted ∧
  files (fs r.2) !! artifact_path cfg (id_ a) ext = None ∧
  delete_file (id_ a) cfg order r.2 = (NotFound, r.2).
Proof.
  intros Horder Hup Htype Hfresh. simpl.
  assert (extension_or_empty (fileName a) ∈ ALLOWED_DOCUMENT_EXTENSIONS
          ∧ thumbnailURL a = None) as [Hdoc Hurl].
  { destruct (upload_file_success_inv req env w w1 a Hup)
      as (f & Hf & Hname & Hallowed & Hsize & Hmk & Hsave).
    pose proof Hup as Hup'.
    rewrite (upload_file_admitted req env f w Hf Hname Hallowed Hsize) in Hup'.
    destruct (upload_admitted_spec f (stream_length f) req env w Hmk Hsave)
      as (w' & cs & Hrun & _).
    unfold route in Hup'. rewrite Hrun in Hup'. injection Hup' as <- <-.
    simpl in *. split; [by apply get_file_type_document |]. by rewrite Htype. }
  split; [done |]. split; [done |].
  destruct (upload_known_then_remove order req env w w1 a Horder Hup) as (H1 & H2 & _ & H4);
    [apply elem_of_union; by right | done | done].
Qed.

(** X13 at work: notes are uploaded, removed, and removed again. *)
Lemma document_upload_then_remove_witness :
  let up := upload_file (Sample.upload_of Sample.notes) Sample.upload_ok Sample.empty_world in
  let removed :=
    delete_file "file_abcdef123456" (Some "uploads") (elements all_allowed) up.2 in
  removed.1 = Deleted ∧
  (delete_file "file_abcdef123456" (Some "uploads") (elements all_allowed) removed.2).1
    = NotFound.
Proof.
  intros up removed.
  pose (a := {| id_ := "file_abcdef123456";
                type_ := "document";
                fileName := "notes.txt";
                fileURL := "http://localhost:5000/uploads/chat/file_abcdef123456.txt";
                thumbnailURL := None;
                fileSize := 1200;
                mimeType := "text/plain";
                extractedText := None |}).
  destruct (document_upload_then_remove (elements all_allowed)
              (Sample.upload_of Sample.notes) Sample.upload_ok Sample.empty_world up.2 a)
    as (_ & _ & Hdeleted & _ & Hagain).
  - reflexivity.
  - apply injective_projections; [vm_compute; reflexivity | reflexivity].
  - reflexivity.
  - intros ext _. apply lookup_empty.
  - split; [exact Hdeleted | exact (f_equal fst Hagain)].
Defined.

(** The MIME table has an entry for the image and document extensions, and
    for no other. *)
Lemma mime_types_dom : dom mime_types = all_allowed.
Proof. apply (bool_decide_unpack _). by vm_compute. Qed.

Lemma mime_types_known (e : string) :
  e ∈ all_allowed →
  ∃ m, mime_types !! e = Some m ∧ m ≠ "application/octet-stream" ∧
       (e ∈ ALLOWED_IMAGE_EXTENSIONS → Py.prefix 6 m = "image/").
Proof.
  unfold all_allowed, ALLOWED_IMAGE_EXTENSIONS, ALLOWED_DOCUMENT_EXTENSIONS.
  rewrite !elem_of_union, !elem_of_singleton.
  intros H. repeat destruct H as [H|H]; subst e;
    (eexists; split; [by vm_compute |]; split; [done |]);
    first [ by intros _ | intros Himg; exfalso; revert Himg; by vm_compute ].
Qed.

(** X14.  In the response of a successful upload the MIME type goes with
    the type: it is the generic [application/octet-stream] exactly when the
    type is neither [image] nor [document], and it starts with [image/] when
    the type is [image]. *)
Theorem upload_mime_follows_type (req : UploadRequest) (env : upload_env) (w w1 : world)
    (a : AttachmentJson) :
  upload_file req env w = ((JsonFile a, 200), w1) →
  (mimeType a = "application/octet-stream" ↔ type_ a ≠ "image" ∧ type_ a ≠ "document") ∧
  (type_ a = "image" → Py.prefix 6 (mimeType a) = "image/").
Proof.
  intros Hup.
  destruct (upload_file_success_inv req env w w1 a Hup)
    as (f & Hf & Hname & Hallowed & Hsize & Hmk & Hsave).
  rewrite (upload_file_admitted req env f w Hf Hname Hallowed Hsize) in Hup.
  destruct (upload_admitted_spec f (stream_length f) req env w Hmk Hsave)
    as (w' & cs & Hrun & _).
  unfold route in Hup. rewrite Hrun in Hup. injection Hup as <- <-. simpl.
  set (name := werkzeug_secure_filename env (filename f)).
  destruct (get_file_type_extension name) as (Himage & Hdocument).
  set (ext := extension_or_empty name) in *.
  destruct (decide (ext ∈ all_allowed)) as [Hknown|Hunknown].
  - destruct (mime_types_known ext Hknown) as (m & -> & Hm & Hprefix). simpl.
    split; [| intros Ht; by apply Hprefix, Himage].
    split; [done |]. intros [Hni Hnd].
    apply elem_of_union in Hknown as [Hin|Hin]; [by apply Himage in Hin |].
    by apply Hdocument in Hin.
  - assert (mime_types !! ext = None) as ->.
    { apply not_elem_of_dom. by rewrite mime_types_dom. }
    simpl. unfold all_allowed in Hunknown. rewrite not_elem_of_union in Hunknown.
    destruct Hunknown as [Hni Hnd]. split.
    + split; [| done]. intros _. split; intros Ht; [by apply Himage in Ht |].
      by apply Hdocument in Ht.
    + intros Ht. by apply Himage in Ht.
Qed.

(** X14 at work on the upload of the photo. *)
Lemma upload_mime_follows_type_witness :
  let a := {| id_ := "file_abcdef123456";
              type_ := "image";
              fileName := "photo.jpg";
              fileURL := "http://localhost:5000/uploads/chat/file_abcdef123456.jpg";
              thumbnailURL :=
                Some "http://localhost:5000/uploads/chat/thumbs/file_abcdef123456_thumb.jpg";
              fileSize := 51200;
              mimeType := "image/jpeg";
              extractedText := None |} in
  (mimeType a = "application/octet-stream" ↔ type_ a ≠ "image" ∧ type_ a ≠ "document") ∧
  (type_ a = "image" → Py.prefix 6 (mimeType a) = "image/").
Proof.
  intros a.
  apply (upload_mime_follows_type (Sample.upload_of Sample.photo) Sample.upload_ok
           Sample.empty_world
           (upload_file (Sample.upload_of Sample.photo) Sample.upload_ok
              Sample.empty_world).2 a).
  apply injective_projections; [vm_compute; reflexivity | reflexivity].
Defined.

(** ** What the derivations log *)

Ltac logged_step l :=
  exists l; frame; rewrite <- ?app_assoc, ?app_nil_r; repeat split; done.

(** [create_thumbnail] logs nothing when it makes the thumbnail and one
    entry when it does not: the warning of line 331 when Pillow is absent. *)
Lemma create_thumbnail_logged (image_path upload_folder file_id ext : string)
    (pil : pil_env) (w : world) :
  ∃ l,
    logged (create_thumbnail image_path upload_folder file_id ext pil w).2
      = (logged w ++ l)%list ∧
    length l = (if thumbnail_made pil then 0 else 1)%nat ∧
    (PIL_installed pil = false →
     l = [(WARNING, "Pillow non installé, pas de miniature créée")]).
Proof.
  unfold create_thumbnail, thumbnail_made. run.
  destruct (PIL_installed pil); simpl; [| logged_step [(WARNING, "Pillow non installé, pas de miniature créée")]].
  destruct (thumbs_makedirs pil) as [e|]; simpl.
  { destruct (exn_class_of e); simpl; logged_step [(WARNING, "Pillow non installé, pas de miniature créée")] || logged_step [(ERROR, "Erreur création miniature: " +:+ exn_str e)]. }
  destruct (Image_open_result pil) as [e|img]; simpl.
  { destruct (exn_class_of e); simpl; logged_step [(WARNING, "Pillow non installé, pas de miniature créée")] || logged_step [(ERROR, "Erreur création miniature: " +:+ exn_str e)]. }
  destruct (bool_decide (mode img ∈ ["RGBA"; "P"])); simpl;
    [destruct (Image_convert_fault pil) as [e|]; simpl |];
    [destruct (exn_class_of e); simpl;
     (logged_step [(WARNING, "Pillow non installé, pas de miniature créée")]
      || logged_step [(ERROR, "Erreur création miniature: " +:+ exn_str e)]) .. | |];
    (destruct (Image_thumbnail_fault pil) as [e|]; simpl;
     [destruct (exn_class_of e); simpl;
      (logged_step [(WARNING, "Pillow non installé, pas de miniature créée")]
       || logged_step [(ERROR, "Erreur création miniature: " +:+ exn_str e)]) .. |]);
    (destruct (Image_save_result pil) as [e|data]; simpl;
     [destruct (exn_class_of e); simpl;
      (logged_step [(WARNING, "Pillow non installé, pas de miniature créée")]
       || logged_step [(ERROR, "Erreur création miniature: " +:+ exn_str e)]) ..
     | logged_step (@nil (log_level * string))]).
Qed.

(** [extract_pdf_text] logs nothing when it returns a text and one entry
    when it returns none: the warning of line 351 when PyPDF2 is absent. *)
Lemma extract_pdf_text_logged (pdf_path : string) (pdf : pdf_env) (w : world) :
  ∃ l,
    logged (extract_pdf_text pdf_path pdf w).2 = (logged w ++ l)%list ∧
    length l = match pdf_text pdf with Some _ => 0%nat | None => 1%nat end ∧
    (PyPDF2_installed pdf = false →
     l = [(WARNING, "PyPDF2 non installé, pas d'extraction PDF")]).
Proof.
  unfold extract_pdf_text, pdf_text. run.
  destruct (PyPDF2_installed pdf); simpl;
    [| logged_step [(WARNING, "PyPDF2 non installé, pas d'extraction PDF")]].
  destruct (PdfReader_result pdf) as [e|pages]; simpl.
  { destruct (exn_class_of e); simpl;
      (logged_step [(WARNING, "PyPDF2 non installé, pas d'extraction PDF")]
       || logged_step [(ERROR, "Erreur extraction PDF: " +:+ exn_str e)]). }
  destruct (extract_pages_spec (take 10 pages) 0 "" (with_call (PdfReader_open pdf_path) w))
    as (w' & cs & -> & Hfs & Hlog & Hcalls & Hreads & Hwithin).
  destruct (join_pages (take 10 pages) "") as [e|text]; simpl.
  - destruct (exn_class_of e); simpl;
      first [ exists [(WARNING, "PyPDF2 non installé, pas d'extraction PDF")];
              frame; rewrite Hlog; by repeat split
            | exists [(ERROR, "Erreur extraction PDF: " +:+ exn_str e)];
              frame; rewrite Hlog; by repeat split ].
  - exists []. rewrite Hlog, app_nil_r. by repeat split.
Qed.

(** The log and the calls of an upload whose folder is made and whose
    original is saved. *)
Lemma upload_admitted_trace (f : FileStorage) (size : Z) (req : UploadRequest)
    (env : upload_env) (w : world) :
  chat_makedirs env = None →
  upload_save env = Saved →
  let name := werkzeug_secure_filename env (filename f) in
  let image := String.eqb (get_file_type name) "image" in
  let pdf := String.eqb (extension_or_empty name) "pdf" in
  let w' := (upload_admitted f size req env w).2 in
  ∃ lt lp,
    logged w' = (logged w ++ lt ++ lp)%list ∧
    length lt = (if image && negb (thumbnail_made (pil env)) then 1 else 0)%nat ∧
    length lp = (if pdf then match pdf_text (pypdf2 env) with
                             | Some _ => 0
                             | None => 1
                             end
                 else 0)%nat ∧
    (image = false → pdf = false → calls w' = calls w).
Proof.
  intros Hmk Hsave name image pdf w'.
  cut (∃ r w3 lt lp,
         upload_admitted f size req env w = (r, w3) ∧
         logged w3 = (logged w ++ lt ++ lp)%list ∧
         length lt = (if image && negb (thumbnail_made (pil env)) then 1 else 0)%nat ∧
         length lp = (if pdf then match pdf_text (pypdf2 env) with
                                  | Some _ => 0
                                  | None => 1
                                  end
                      else 0)%nat ∧
         (image = false → pdf = false → calls w3 = calls w)).
  { intros (r & w3 & lt & lp & E & Hrest). subst w'. rewrite E. by exists lt, lp. }
  clear w'. subst image pdf name. unfold upload_admitted.
  unfold mbind at 1, M_bind at 1, bind at 1. unfold os_makedirs at 1. rewrite Hmk.
  unfold mbind at 1, M_bind at 1, bind at 1. unfold FileStorage_save at 1. rewrite Hsave.
  set (name := werkzeug_secure_filename env (filename f)).
  set (ext := extension_or_empty name).
  set (file_id := "file_" ++ Py.prefix 12 (upload_uuid4_hex env)).
  set (chat := Py.os_path_join (default "uploads" (UPLOAD_FOLDER env)) "chat").
  set (file_path := Py.os_path_join chat (file_id ++ "." ++ ext)).
  set (w1 := with_files _ _).
  assert (logged w1 = logged w) as Hl1 by done.
  assert (calls w1 = calls w) as Hc1 by done.
  clearbody w1.
  unfold mbind at 1, M_bind at 1, bind at 1.
  assert (∃ v w2 lt,
    (if String.eqb (get_file_type name) "image"
     then thumb ← create_thumbnail file_path chat file_id ext (pil env);
          if from_option Py.truthy false thumb
          then mret (Some (Py.rstrip_char "/" (host_url req) ++ "/uploads/chat/thumbs/"
                           ++ file_id ++ "_thumb." ++ ext))
          else mret thumb
     else mret None) w1 = (inr v, w2) ∧
    logged w2 = (logged w1 ++ lt)%list ∧
    length lt = (if String.eqb (get_file_type name) "image"
                    && negb (thumbnail_made (pil env)) then 1 else 0)%nat ∧
    (String.eqb (get_file_type name) "image" = false → calls w2 = calls w1))
    as (v & w2 & lt & -> & Hl2 & Hlt & Hc2).
  { destruct (String.eqb (get_file_type name) "image"); simpl.
    - destruct (create_thumbnail_spec file_path chat file_id ext (pil env) w1)
        as (w2 & cs2 & Hct & _).
      destruct (create_thumbnail_logged file_path chat file_id ext (pil env) w1)
        as (lt & Hlog & Hlen & _).
      rewrite Hct in Hlog. simpl in Hlog.
      unfold mbind, M_bind, bind. rewrite Hct.
      destruct (thumbnail_made (pil env)); simpl.
      + rewrite truthy_join by by apply truthy_append_r.
        by eexists _, w2, lt.
      + by eexists _, w2, lt.
    - eexists _, w1, []. run. by rewrite app_nil_r. }
  unfold mbind at 1, M_bind at 1, bind at 1.
  assert (∃ v' w3 lp,
    (if String.eqb ext "pdf" then extract_pdf_text file_path (pypdf2 env) else mret None) w2
      = (inr v', w3) ∧
    logged w3 = (logged w2 ++ lp)%list ∧
    length lp = (if String.eqb ext "pdf"
                 then match pdf_text (pypdf2 env) with Some _ => 0 | None => 1 end
                 else 0)%nat ∧
    (String.eqb ext "pdf" = false → calls w3 = calls w2))
    as (v' & w3 & lp & -> & Hl3 & Hlp & Hc3).
  { destruct (String.eqb ext "pdf"); simpl.
    - destruct (extract_pdf_text_spec file_path (pypdf2 env) w2)
        as (w3 & cs3 & Hx & _).
      destruct (extract_pdf_text_logged file_path (pypdf2 env) w2)
        as (lp & Hlog & Hlen & _).
      rewrite Hx in Hlog. simpl in Hlog. rewrite Hx.
      by eexists _, w3, lp.
    - eexists _, w2, []. run. by rewrite app_nil_r. }
  eexists _, w3, lt, lp. split; [reflexivity |].
  rewrite Hl3, Hl2, Hl1, <- app_assoc.
  repeat split; try done.
  intros Hi Hp. by rewrite (Hc3 Hp), (Hc2 Hi).
Qed.

(** X15.  A successful upload logs nothing, unless the thumbnail of an image
    or the text of a PDF could not be derived: then it logs exactly one
    entry. *)
Theorem upload_logs_failed_derivation (req : UploadRequest) (env : upload_env)
    (w w1 : world) (a : AttachmentJson) :
  upload_file req env w = ((JsonFile a, 200), w1) →
  let failed :=
    String.eqb (type_ a) "image" && negb (thumbnail_made (pil env))
    || String.eqb (extension_or_empty (fileName a)) "pdf"
       && negb (bool_decide (is_Some (pdf_text (pypdf2 env)))) in
  ∃ l, logged w1 = (logged w ++ l)%list ∧ length l = (if failed then 1 else 0)%nat.
Proof.
  intros Hup. simpl.
  destruct (upload_file_success_inv req env w w1 a Hup)
    as (f & Hf & Hname & Hallowed & Hsize & Hmk & Hsave).
  rewrite (upload_file_admitted req env f w Hf Hname Hallowed Hsize) in Hup.
  destruct (upload_admitted_spec f (stream_length f) req env w Hmk Hsave)
    as (w' & cs & Hrun & _).
  destruct (upload_admitted_trace f (stream_length f) req env w Hmk Hsave)
    as (lt & lp & Hlog & Hlt & Hlp & _).
  rewrite Hrun in Hlog. simpl in Hlog.
  unfold route in Hup. rewrite Hrun in Hup. injection Hup as <- <-. simpl.
  set (name := werkzeug_secure_filename env (filename f)) in *.
  exists (lt ++ lp)%list. split; [done |]. rewrite length_app, Hlt, Hlp.
  destruct (String.eqb_spec (get_file_type name) "image") as [Himg|_]; simpl.
  - assert (String.eqb (extension_or_empty name) "pdf" = false) as ->.
    { apply eqb_false_ne. intros Hpdf. apply get_file_type_image in Himg.
      rewrite Hpdf in Himg. revert Himg. by vm_compute. }
    rewrite orb_false_r. by destruct (thumbnail_made (pil env)).
  - destruct (String.eqb (extension_or_empty name) "pdf"); [| done].
    by destruct (pdf_text (pypdf2 env)).
Qed.

(** X15 at work: a photo uploaded where Pillow is not installed. *)
Lemma upload_logs_failed_derivation_witness :
  let up := upload_file (Sample.upload_of Sample.photo)
              (Sample.with_pil Sample.pil_missing Sample.upload_ok) Sample.empty_world in
  ∃ l, logged up.2 = ([] ++ l)%list ∧ length l = 1%nat.
Proof.
  intros up.
  pose (a := {| id_ := "file_abcdef123456";
                type_ := "image";
                fileName := "photo.jpg";
                fileURL := "http://localhost:5000/uploads/chat/file_abcdef123456.jpg";
                thumbnailURL := None;
                fileSize := 51200;
                mimeType := "image/jpeg";
                extractedText := None |}).
  apply (upload_logs_failed_derivation (Sample.upload_of Sample.photo)
           (Sample.with_pil Sample.pil_missing Sample.upload_ok) Sample.empty_world up.2 a).
  apply injective_projections; [vm_compute; reflexivity | reflexivity].
Defined.

(** X16.  A text document ([txt] or [md]) is stored and nothing else: the
    upload calls no capability, logs nothing, and the response names neither
    a thumbnail nor an extracted text. *)
Theorem upload_text_document (req : UploadRequest) (env : upload_env) (w w1 : world)
    (a : AttachmentJson) :
  upload_file req env w = ((JsonFile a, 200), w1) →
  extension_or_empty (fileName a) = "txt" ∨ extension_or_empty (fileName a) = "md" →
  type_ a = "document" ∧
  thumbnailURL a = None ∧
  extractedText a = None ∧
  calls w1 = calls w ∧
  logged w1 = logged w.
Proof.
  intros Hup Hext.
  destruct (upload_file_success_inv req env w w1 a Hup)
    as (f & Hf & Hname & Hallowed & Hsize & Hmk & Hsave).
  rewrite (upload_file_admitted req env f w Hf Hname Hallowed Hsize) in Hup.
  destruct (upload_admitted_spec f (stream_length f) req env w Hmk Hsave)
    as (w' & cs & Hrun & _).
  destruct (upload_admitted_trace f (stream_length f) req env w Hmk Hsave)
    as (lt & lp & Hlog & Hlt & Hlp & Hcalls).
  rewrite Hrun in Hlog, Hcalls. simpl in Hlog, Hcalls.
  unfold route in Hup. rewrite Hrun in Hup. injection Hup as <- <-. simpl in *.
  set (name := werkzeug_secure_filename env (filename f)) in *.
  assert (get_file_type name = "document"
          ∧ String.eqb (extension_or_empty name) "pdf" = false) as [Htype Hpdf].
  { unfold get_file_type. simpl. by destruct Hext as [-> | ->]. }
  rewrite Htype, Hpdf in *. simpl in *.
  destruct lt; [| done]. destruct lp; [| done].
  rewrite app_nil_r in Hlog. repeat split; try done. by apply Hcalls.
Qed.

(** X16 at work: the notes. *)
Lemma upload_text_document_witness :
  let up := upload_file (Sample.upload_of Sample.notes) Sample.upload_ok Sample.empty_world in
  calls up.2 = [] ∧ logged up.2 = [].
Proof.
  intros up.
  pose (a := {| id_ := "file_abcdef123456";
                type_ := "document";
                fileName := "notes.txt";
                fileURL := "http://localhost:5000/uploads/chat/file_abcdef123456.txt";
                thumbnailURL := None;
                fileSize := 1200;
                mimeType := "text/plain";
                extractedText := None |}).
  destruct (upload_text_document (Sample.upload_of Sample.notes) Sample.upload_ok
              Sample.empty_world up.2 a) as (_ & _ & _ & Hcalls & Hlogged).
  - apply injective_projections; [vm_compute; reflexivity | reflexivity].
  - left. reflexivity.
  - split; [exact Hcalls | exact Hlogged].
Defined.

(** ** One artifact for each call of [delete_file] (lines 362-396) *)

(** The artifacts of the other extensions stay where they are when the
    artifact of one extension is taken away. *)
Lemma without_artifact_others (file_id : string) (cfg : option string) (ext e : string)
    (w : world) :
  slash_free file_id → ext ∈ all_allowed → e ∈ all_allowed → e ≠ ext →
  files (fs (without_artifact file_id cfg ext w)) !! artifact_path cfg file_id e
    = files (fs w) !! artifact_path cfg file_id e ∧
  files (fs (without_artifact file_id cfg ext w)) !! thumbnail_path cfg file_id e
    = files (fs w) !! thumbnail_path cfg file_id e.
Proof.
  intros Hid Hext He Hne.
  destruct (known_extension_plain ext Hext) as [[Hdot Hslash] _].
  destruct (known_extension_plain e He) as [[Hdot' Hslash'] _].
  assert (artifact_path cfg file_id e ≠ artifact_path cfg file_id ext) as H1.
  { intros E. by apply artifact_path_inj in E as [_ E]. }
  assert (artifact_path cfg file_id e ≠ thumbnail_path cfg file_id ext) as H2.
  { apply artifact_not_thumbnail; [done | by apply slash_free_relative | done]. }
  assert (thumbnail_path cfg file_id e ≠ thumbnail_path cfg file_id ext) as H3.
  { intros E. by apply thumbnail_path_inj in E as [_ E]. }
  assert (thumbnail_path cfg file_id e ≠ artifact_path cfg file_id ext) as H4.
  { intros E. symmetry in E. revert E.
    apply artifact_not_thumbnail; [done | by apply slash_free_relative | done]. }
  simpl. by rewrite !lookup_delete_ne.
Qed.

(** X17.  A call of [delete_file] that answers [Deleted] has removed the
    artifact of exactly one extension (with its thumbnail): the artifacts
    and thumbnails the identifier has under the other extensions are left as
    they were, so that a second call answers [Deleted] again exactly when
    another extension had an artifact. *)
Theorem delete_file_one_per_call (file_id : string) (cfg : option string)
    (order : list string) (w : world) :
  order ≡ₚ elements all_allowed →
  slash_free file_id →
  (delete_file file_id cfg order w).1 = Deleted →
  ∃ ext,
    ext ∈ all_allowed ∧
    is_Some (files (fs w) !! artifact_path cfg file_id ext) ∧
    (delete_file file_id cfg order w).2 = without_artifact file_id cfg ext w ∧
    (∀ e, e ∈ all_allowed → e ≠ ext →
       files (fs (delete_file file_id cfg order w).2) !! artifact_path cfg file_id e
         = files (fs w) !! artifact_path cfg file_id e ∧
       files (fs (delete_file file_id cfg order w).2) !! thumbnail_path cfg file_id e
         = files (fs w) !! thumbnail_path cfg file_id e) ∧
    ((delete_file file_id cfg order (delete_file file_id cfg order w).2).1 = Deleted ↔
       ∃ e, e ∈ all_allowed ∧ e ≠ ext ∧
            is_Some (files (fs w) !! artifact_path cfg file_id e)).
Proof.
  intros Horder Hid Hdel.
  assert (∀ e, e ∈ order ↔ e ∈ all_allowed) as Hin.
  { intros e. by rewrite Horder, elem_of_elements. }
  rewrite delete_file_spec in *.
  destruct (matching_extension file_id cfg order w) as [ext|] eqn:Hm; [| done].
  apply matching_extension_some in Hm as [Hext Hthere]. apply Hin in Hext.
  exists ext. simpl.
  split; [done |]. split; [done |]. split; [done |].
  split; [intros e He Hne; by apply without_artifact_others |].
  destruct (delete_file_answer file_id cfg order (without_artifact file_id cfg ext w) Horder)
    as [-> _].
  split.
  - intros (e & He & Hsome). exists e.
    destruct (decide (e = ext)) as [->|Hne].
    + exfalso. revert Hsome. simpl. rewrite lookup_delete_ne.
      * rewrite lookup_delete_eq. by intros [? ?].
      * intros E. symmetry in E. revert E.
        destruct (known_extension_plain ext Hext) as [[_ Hslash] _].
        apply artifact_not_thumbnail; [done | by apply slash_free_relative | done].
    + destruct (without_artifact_others file_id cfg ext e w Hid Hext He Hne) as [E _].
      by rewrite E in Hsome.
  - intros (e & He & Hne & Hsome). exists e. split; [done |].
    destruct (without_artifact_others file_id cfg ext e w Hid Hext He Hne) as [E _].
    by rewrite E.
Qed.

(** X17 at work: an identifier with a PDF and a JPEG on storage needs two
    calls. *)
Lemma delete_file_one_per_call_witness :
  let r := delete_file "file_abcdef123456" None (elements all_allowed) Sample.collision in
  r.1 = Deleted ∧ (delete_file "file_abcdef123456" None (elements all_allowed) r.2).1 = Deleted.
Proof.
  intros r.
  destruct (delete_file_one_per_call "file_abcdef123456" None (elements all_allowed)
              Sample.collision (reflexivity _))
    as (ext & Hext & Hthere & _ & _ & Hagain);
    [reflexivity | vm_compute; reflexivity |].
  split; [vm_compute; reflexivity |].
  apply Hagain.
  destruct (decide (ext = "pdf")) as [->|Hne].
  - exists "jpg". split; [by vm_compute |].
    split; [discriminate | eexists; vm_compute; reflexivity].
  - exists "pdf". split; [by vm_compute |].
    split; [congruence | eexists; vm_compute; reflexivity].
Defined.
